(** * Travel-log application: handlers, listings and the session machine

  A shallow embedding of the React components of the travel-log
  application (TripForm, ConsentPage, Index, Dashboard and
  ScientistDashboard) together with the properties their specification
  states about them.

  Every event handler is an [async] function with [try]/[catch]/[finally]
  blocks and early [return]s.  Handlers are embedded in a small
  state-and-completion monad over a [World]: the component's React state,
  the chronological log of observable effects (notices, backend calls,
  console output, callbacks, downloads) and the backend tables.  What the
  backend answers to an awaited call is an argument of the handler. *)

From Stdlib Require Import Ascii DecimalString.
From stdpp Require Import gmap strings list sorting.

(** ** JavaScript values used by the components *)

Module JS.

(** Truthiness of a string: every string but the empty one. *)
Definition truthy (s : string) : bool :=
  match s with
  | EmptyString => false
  | String _ _ => true
  end.

(** [s || d] on strings. *)
Definition or_else (s d : string) : string :=
  if truthy s then s else d.

(** [s || null] on strings. *)
Definition or_null (s : string) : option string :=
  if truthy s then Some s else None.

(** [o || ""] where [o] is a string, [null] or [undefined]. *)
Definition or_empty (o : option string) : string :=
  match o with
  | Some s => s
  | None => ""
  end.

(** [String.prototype.toLowerCase] on ASCII text: the letters A to Z are
    lowered, every other character is left as it is.  The trip form lowers
    its own labels with it, which are ASCII; the research view's search,
    which lowers what users typed, takes the engine's function as an
    argument instead (see [lowers_ascii]). *)
Definition lower (c : ascii) : ascii :=
  let n := nat_of_ascii c in
  if (65 <=? n) && (n <=? 90) then ascii_of_nat (n + 32) else c.

Fixpoint toLowerCase (s : string) : string :=
  match s with
  | EmptyString => EmptyString
  | String c s' => String (lower c) (toLowerCase s')
  end.



(** [s.startsWith(t)]. *)
Fixpoint startsWith (s t : string) : bool :=
  match t, s with
  | EmptyString, _ => true
  | String _ _, EmptyString => false
  | String ct t', String cs s' =>
      if decide (cs = ct) then startsWith s' t' else false
  end.

(** [s.includes(t)]: [t] starts at some position of [s]. *)
Fixpoint includes (s t : string) : bool :=
  startsWith s t ||
  match s with
  | EmptyString => false
  | String _ s' => includes s' t
  end.

(** [xs.join(sep)] on an array of strings. *)
Fixpoint join (sep : string) (xs : list string) : string :=
  match xs with
  | [] => ""
  | [x] => x
  | x :: rest => x +:+ sep +:+ join sep rest
  end.

(** [String(n)] for an integer-valued number (decimal digits, with a
    leading minus sign for negative values). *)
Definition Number_toString (n : Z) : string :=
  NilZero.string_of_int (Z.to_int n).

(** [s.slice(0, n)]. *)
Fixpoint slice0 (n : nat) (s : string) : string :=
  match n, s with
  | S n', String c s' => String c (slice0 n' s')
  | _, _ => EmptyString
  end.

Definition comma : ascii := ","%char.
Definition newline : ascii := "010"%char.

End JS.

(** ** The backend client, as the components see it *)

Module Supabase.

Record User := mkUser { id : string; email : string }.

Record Session := mkSession { user : User; access_token : string }.

(** The error object of a data call. *)
Record PostgrestError := mkError { message : string; code : string }.

(** A thrown value, as caught by [catch (error)]. *)
Definition Exn := string.

(** What an awaited promise does: it resolves with a value or rejects. *)
Inductive reply (A : Type) :=
  | Resolved (a : A)
  | Rejected (e : Exn).
Global Arguments Resolved {A} a.
Global Arguments Rejected {A} e.

(** Row of the [trips] table as the submission flow inserts it. *)
Record trips_row := mkTripsRow {
    user_id : string;
    trip_number : option string;
    origin : string;
    destination : string;
    mode : string;
    start_time : option string;
    end_time : option string;
    companions : option string
  }.

(** Row of the [profiles] table as the consent flow upserts it. *)
Record profiles_row := mkProfilesRow {
    profile_id : string;
    consent : bool;
    updated_at : string
  }.

(** Modelled from the spec: the external data store behind the client,
    which is not part of the repository.  [profiles] holds one row per
    user id, [trips] the rows inserted so far.  A call that resolves
    without error takes effect; a call that resolves with an error, or
    rejects, leaves the tables as they were. *)
Record Database := mkDatabase {
    profiles : gmap string profiles_row;
    trips : list trips_row
  }.

Definition insert_trip (row : trips_row) (d : Database) : Database :=
  {| profiles := profiles d; trips := trips d ++ [row] |}.

Definition upsert_profile (row : profiles_row) (d : Database) : Database :=
  {| profiles := <[profile_id row := row]> (profiles d); trips := trips d |}.

(** The consent flag the backend holds for a user id. *)
Definition consent_flag (d : Database) (uid : string) : bool :=
  match profiles d !! uid with
  | Some row => consent row
  | None => false
  end.

(** Modelled from the spec: [select(table, filters, order) -> rows|error].
    The response object carries either the rows or the error; the other
    member is [null]. *)
Inductive response (A : Type) :=
  | rows (l : list A)
  | failure (e : PostgrestError).
Global Arguments rows {A} l.
Global Arguments failure {A} e.

Definition data {A} (r : response A) : option (list A) :=
  match r with
  | rows l => Some l
  | failure _ => None
  end.

Definition error {A} (r : response A) : option PostgrestError :=
  match r with
  | rows _ => None
  | failure e => Some e
  end.

(** The backend calls the components issue. *)
Inductive Call :=
  | auth_getUser
  | from_trips_insert (row : trips_row)
  | from_profiles_upsert (row : profiles_row)
  | from_trips_select (eq_user_id : option string).

End Supabase.

(** ** Effects and the handler monad *)

Module Eff.
Import Supabase.

Inductive ToastStyle := destructive | success.

Record Toast := mkToast {
    title : string;
    description : string;
    style : ToastStyle
  }.

Inductive Callback := onTripSaved | onConsentGiven.

Global Instance Callback_eq_dec : EqDecision Callback.
Proof. solve_decision. Defined.

Inductive Effect :=
  | toasted (t : Toast)
  | awaited (c : Call)
  | console_error (label : string)
  | called (cb : Callback)
  | downloaded (filename mime content : string).

(** The world a handler of a component with local state [L] runs in. *)
Record World (L : Type) := mkWorld {
    local : L;
    effects : list Effect;
    db : Database
  }.
Global Arguments mkWorld {L} _ _ _.
Global Arguments local {L} _.
Global Arguments effects {L} _.
Global Arguments db {L} _.

(** How a block of statements completes. *)
Inductive completion (A : Type) :=
  | Normal (a : A)
  | Return
  | Throw (e : Exn).
Global Arguments Normal {A} a.
Global Arguments Return {A}.
Global Arguments Throw {A} e.

Definition M (L A : Type) : Type := World L -> completion A * World L.

Definition ret {L A} (a : A) : M L A := fun w => (Normal a, w).

Definition bind {L A B} (m : M L A) (k : A -> M L B) : M L B :=
  fun w =>
    match m w with
    | (Normal a, w') => k a w'
    | (Return, w') => (Return, w')
    | (Throw e, w') => (Throw e, w')
    end.

(** [return;] *)
Definition return_ {L A} : M L A := fun w => (Return, w).

Definition throw {L A} (e : Exn) : M L A := fun w => (Throw e, w).

(** [try { body } catch (error) { handler } finally { finalizer }] *)
Definition try_catch_finally {L A}
    (body : M L A) (handler : Exn -> M L A) (finalizer : M L unit) : M L A :=
  fun w =>
    let '(c, w1) :=
      match body w with
      | (Throw e, w') => handler e w'
      | other => other
      end in
    match finalizer w1 with
    | (Normal _, w2) => (c, w2)
    | (Return, w2) => (Return, w2)
    | (Throw e, w2) => (Throw e, w2)
    end.

Definition get {L} : M L L := fun w => (Normal (local w), w).

Definition modify {L} (f : L -> L) : M L unit :=
  fun w => (Normal tt, mkWorld (f (local w)) (effects w) (db w)).

Definition emit {L} (e : Effect) : M L unit :=
  fun w => (Normal tt, mkWorld (local w) (effects w ++ [e]) (db w)).

Definition on_db {L} (f : Database -> Database) : M L unit :=
  fun w => (Normal tt, mkWorld (local w) (effects w) (f (db w))).

Definition toast {L} (t : Toast) : M L unit := emit (toasted t).

(** [await p]: the value the promise resolves with, or its rejection
    thrown. *)
Definition await {L A} (c : Call) (r : reply A) : M L A :=
  fun w =>
    let w' := mkWorld (local w) (effects w ++ [awaited c]) (db w) in
    match r with
    | Resolved a => (Normal a, w')
    | Rejected e => (Throw e, w')
    end.

(** Running a handler to its end: the world it leaves behind. *)
Definition exec {L A} (m : M L A) (w : World L) : World L := snd (m w).

(** The notices, backend calls and callbacks among logged effects. *)
Definition toasts (es : list Effect) : list Toast :=
  omap (fun e => match e with toasted t => Some t | _ => None end) es.

Definition calls (es : list Effect) : list Call :=
  omap (fun e => match e with awaited c => Some c | _ => None end) es.

Definition callbacks (es : list Effect) : list Callback :=
  omap (fun e => match e with called cb => Some cb | _ => None end) es.

(** How many times a callback was invoked in a log of effects. *)
Definition invocations (cb : Callback) (es : list Effect) : nat :=
  length (filter (fun c => c = cb) (callbacks es)).

End Eff.

Declare Scope js_scope.
Delimit Scope js_scope with js.
Notation "x <- c1 ;; c2" := (Eff.bind c1 (fun x => c2))
  (at level 100, c1 at next level, c2 at level 200, right associativity) : js_scope.
Notation "c1 ;;; c2" := (Eff.bind c1 (fun _ => c2))
  (at level 100, c2 at level 200, right associativity) : js_scope.

(** ** TripForm.tsx *)

Module TripForm.
Import JS Supabase Eff.
Local Open Scope js_scope.

Record Trip := mkTrip {
    trip_number : string;
    origin : string;
    destination : string;
    mode : string;
    start_time : string;
    end_time : string;
    companions : string
  }.

Definition transportModes : list string :=
  ["Walking"; "Bicycle"; "Motorcycle"; "Car"; "Bus"; "Train"; "Metro";
   "Auto Rickshaw"; "Taxi"; "Other"].

(** The component's state: [trip] and [isLoading]. *)
Record State := mkState { trip : Trip; isLoading : bool }.

(** The value [useState<Trip>] starts from, and the one the form is
    reset to. *)
Definition emptyTrip : Trip := mkTrip "" "" "" "" "" "" "".

Definition initial : State := mkState emptyTrip false.

Definition setTrip (f : Trip -> Trip) : M State unit :=
  modify (fun st => mkState (f (trip st)) (isLoading st)).

Definition setIsLoading (b : bool) : M State unit :=
  modify (fun st => mkState (trip st) b).

(** [keyof Trip] *)
Inductive Field :=
  | k_trip_number | k_origin | k_destination | k_mode
  | k_start_time | k_end_time | k_companions.

(** [{ ...prev, [field]: value }] *)
Definition with_field (field : Field) (value : string) (prev : Trip) : Trip :=
  match field with
  | k_trip_number =>
      mkTrip value (origin prev) (destination prev) (mode prev)
             (start_time prev) (end_time prev) (companions prev)
  | k_origin =>
      mkTrip (trip_number prev) value (destination prev) (mode prev)
             (start_time prev) (end_time prev) (companions prev)
  | k_destination =>
      mkTrip (trip_number prev) (origin prev) value (mode prev)
             (start_time prev) (end_time prev) (companions prev)
  | k_mode =>
      mkTrip (trip_number prev) (origin prev) (destination prev) value
             (start_time prev) (end_time prev) (companions prev)
  | k_start_time =>
      mkTrip (trip_number prev) (origin prev) (destination prev) (mode prev)
             value (end_time prev) (companions prev)
  | k_end_time =>
      mkTrip (trip_number prev) (origin prev) (destination prev) (mode prev)
             (start_time prev) value (companions prev)
  | k_companions =>
      mkTrip (trip_number prev) (origin prev) (destination prev) (mode prev)
             (start_time prev) (end_time prev) value
  end.

Definition handleInputChange (field : Field) (value : string) : M State unit :=
  setTrip (with_field field value).

(** The geolocation success callback of the mount effect; [coords] is the
    text [`${latitude.toFixed(5)}, ${longitude.toFixed(5)}`]. *)
Definition onPosition (coords : string) : M State unit :=
  setTrip (fun prev => with_field k_origin (or_else (origin prev) coords) prev).

(** The start-time part of the mount effect; [now] is
    [new Date().toISOString()]. *)
Definition autofillStartTime (now : string) : M State unit :=
  setTrip (fun prev =>
    with_field k_start_time (or_else (start_time prev) (slice0 16 now)) prev).

Definition missingInformation : Toast :=
  mkToast "Missing Information"
          "Please fill in origin, destination, and mode of transport."
          destructive.

Definition authenticationError : Toast :=
  mkToast "Authentication Error" "Please login to save trips." destructive.

Definition tripSaved : Toast :=
  mkToast "Trip Saved Successfully"
          "Your trip data has been recorded for transportation research."
          success.

Definition unexpectedError : Toast :=
  mkToast "Error" "An unexpected error occurred. Please try again." destructive.

(** [supabase.from('trips').insert([tripData])]: resolves with
    [{ error }]. *)
Definition insert (tripData : trips_row) (r : reply (option PostgrestError))
  : M State (option PostgrestError) :=
  error <- await (from_trips_insert tripData) r ;;
  match error with
  | None => on_db (insert_trip tripData) ;;; ret error
  | Some _ => ret error
  end.

(** [handleSubmit]; the two arguments are what the backend answers to
    [supabase.auth.getUser()] and to the insert. *)
Definition handleSubmit
    (getUser : reply (option User))
    (inserted : reply (option PostgrestError)) : M State unit :=
  st <- get ;;
  let trip := trip st in
  if negb (truthy (origin trip)) || negb (truthy (destination trip))
     || negb (truthy (mode trip))
  then
    toast missingInformation ;;;
    return_
  else
    setIsLoading true ;;;
    try_catch_finally
      (user <- await auth_getUser getUser ;;
       match user with
       | None =>
           toast authenticationError ;;;
           return_
       | Some user =>
           let tripData :=
             {| user_id := id user;
                Supabase.trip_number := or_null (trip_number trip);
                Supabase.origin := origin trip;
                Supabase.destination := destination trip;
                Supabase.mode := mode trip;
                Supabase.start_time := or_null (start_time trip);
                Supabase.end_time := or_null (end_time trip);
                Supabase.companions := or_null (companions trip) |} in
           error <- insert tripData inserted ;;
           match error with
           | Some error =>
               emit (console_error "Trip save error:") ;;;
               toast (mkToast "Error"
                        (or_else (message error) "Failed to save trip data.")
                        destructive) ;;;
               return_
           | None =>
               toast tripSaved ;;;
               setTrip (fun _ => emptyTrip) ;;;
               emit (called onTripSaved)
           end
       end)
      (fun error =>
         emit (console_error "Unexpected error:") ;;;
         toast unexpectedError)
      (setIsLoading false).

(** What can happen to a mounted form: the mount effect's two parts, an
    edit of one of the six text inputs, a choice in the mode [Select]
    (whose items are [transportModes], each with value
    [mode.toLowerCase()]), and a submission. *)
Inductive Event :=
  | position (coords : string)
  | mounted (now : string)
  | typed (field : Field) (value : string)
  | selected (item : string)
  | submitted (getUser : reply (option User))
              (inserted : reply (option PostgrestError)).

(** The events the rendered form can produce: no text input is bound to
    [mode], and the [Select] offers the items of [transportModes] only. *)
Definition possible (ev : Event) : bool :=
  match ev with
  | typed k_mode _ => false
  | selected item => bool_decide (item ∈ transportModes)
  | _ => true
  end.

Definition handle (ev : Event) : M State unit :=
  match ev with
  | position coords => onPosition coords
  | mounted now => autofillStartTime now
  | typed field value => handleInputChange field value
  | selected item => handleInputChange k_mode (toLowerCase item)
  | submitted getUser inserted => handleSubmit getUser inserted
  end.

Fixpoint run (evs : list Event) (w : World State) : World State :=
  match evs with
  | [] => w
  | ev :: rest => run rest (exec (handle ev) w)
  end.

(** A freshly mounted form over an empty [trips] table. *)
Definition fresh : World State := mkWorld initial [] (mkDatabase ∅ []).

End TripForm.

(** ** ConsentPage.tsx *)

Module ConsentPage.
Import JS Supabase Eff.
Local Open Scope js_scope.

(** The component's state: the checkbox and the busy flag. *)
Record State := mkState { consent : bool; isLoading : bool }.

Definition setIsLoading (b : bool) : M State unit :=
  modify (fun st => mkState (consent st) b).

(** [onCheckedChange={(checked) => setConsent(checked === true)}] *)
Definition setConsent (checked : bool) : M State unit :=
  modify (fun st => mkState checked (isLoading st)).

Definition pleaseLogin : Toast :=
  mkToast "Error" "Please login first." destructive.

Definition consentRecorded : Toast :=
  mkToast "Consent Recorded"
          "Thank you for participating in transportation research!" success.

(** [supabase.from('profiles').upsert({...})]: resolves with [{ error }]. *)
Definition upsert (row : profiles_row) (r : reply (option PostgrestError))
    : M State (option PostgrestError) :=
  error <- await (from_profiles_upsert row) r ;;
  match error with
  | None => on_db (upsert_profile row) ;;; ret error
  | Some _ => ret error
  end.

(** [error && error.code !== '42P01'] *)
Definition reportable (error : option PostgrestError) : bool :=
  match error with
  | Some e => negb (bool_decide (code e = "42P01"))
  | None => false
  end.

(** [handleSubmit]; [getUser] and [upserted] are the backend's answers,
    [now] is [new Date().toISOString()]. *)
Definition handleSubmit
      (getUser : reply (option User))
      (upserted : reply (option PostgrestError))
      (now : string) : M State unit :=
  st <- get ;;
  if negb (consent st) then return_
  else
    setIsLoading true ;;;
    try_catch_finally
      (user <- await auth_getUser getUser ;;
       match user with
       | None =>
           toast pleaseLogin ;;;
           return_
       | Some user =>
           error <- upsert {| profile_id := id user;
                              Supabase.consent := true;
                              updated_at := now |} upserted ;;
           (if reportable error
            then emit (console_error "Consent update error:")
            else ret tt) ;;;
           toast consentRecorded ;;;
           emit (called onConsentGiven)
       end)
      (fun error =>
         emit (console_error "Consent error:") ;;;
         emit (called onConsentGiven))
      (setIsLoading false).

End ConsentPage.

(** ** Index.tsx: the session, consent and view state *)

Module Index.
Import Supabase.

Inductive View := user_view | scientist_view.

Record State := mkState {
    user : option User;
    hasConsented : bool;
    currentView : View;
    isLoading : bool
  }.

Definition initial : State := mkState None false user_view true.

Definition setUser (u : option User) (st : State) : State :=
  mkState u (hasConsented st) (currentView st) (isLoading st).

Definition setHasConsented (b : bool) (st : State) : State :=
  mkState (user st) b (currentView st) (isLoading st).

Definition setCurrentView (v : View) (st : State) : State :=
  mkState (user st) (hasConsented st) v (isLoading st).

Definition setIsLoading (b : bool) (st : State) : State :=
  mkState (user st) (hasConsented st) (currentView st) b.

(** The events the auth client notifies subscribers of. *)
Inductive AuthChangeEvent :=
  | INITIAL_SESSION | SIGNED_IN | SIGNED_OUT | TOKEN_REFRESHED
  | USER_UPDATED | PASSWORD_RECOVERY.

Global Instance AuthChangeEvent_eq_dec : EqDecision AuthChangeEvent.
Proof. solve_decision. Defined.

(** [session?.user ?? null] *)
Definition user_of (session : option Session) : option User :=
  match session with
  | Some s => Some (Supabase.user s)
  | None => None
  end.

(** The callback given to [supabase.auth.onAuthStateChange]. *)
Definition onAuthStateChange
      (event : AuthChangeEvent) (session : option Session) (st : State) : State :=
  let st := setUser (user_of session) st in
  if decide (event = SIGNED_OUT) then setHasConsented false st else st.

(** The initial [getSession().then(...)]. *)
Definition onInitialSession (session : option Session) (st : State) : State :=
  setIsLoading false (setUser (user_of session) st).

(** [onAuthSuccess], given what [getSession()] resolves with. *)
Definition onAuthSuccess (session : option Session) (st : State) : State :=
  let st := setIsLoading true st in
  let st := setUser (user_of session) st in
  setIsLoading false st.

(** [onConsentGiven={() => setHasConsented(true)}] *)
Definition onConsentGiven (st : State) : State := setHasConsented true st.

(** [onViewChange={setCurrentView}] *)
Definition onViewChange (v : View) (st : State) : State := setCurrentView v st.

(** What the component renders; the names of the specification's states
    are given beside each screen. *)
Inductive Screen :=
  | Spinner              (* Loading *)
  | AuthPage             (* Unauthenticated *)
  | ConsentPage          (* ConsentPending *)
  | Dashboard            (* UserDashboard *)
  | ScientistDashboard.  (* ResearchDashboard *)

Definition render (st : State) : Screen :=
  if isLoading st then Spinner
  else match user st with
       | None => AuthPage
       | Some _ =>
           if negb (hasConsented st) then ConsentPage
           else match currentView st with
                | user_view => Dashboard
                | scientist_view => ScientistDashboard
                end
       end.

End Index.

(** ** Dashboard.tsx: the user's own trips *)

Module Dashboard.
Import JS Supabase Eff.
Local Open Scope js_scope.

Record Trip := mkTrip {
    id : string;
    trip_number : option string;
    origin : string;
    destination : string;
    mode : string;
    start_time : option string;
    end_time : option string;
    companions : option string;
    created_at : option string
  }.

Record State := mkState {
    showForm : bool;
    trips : list Trip;
    isLoading : bool;
    user : option User
  }.

Definition setTrips (l : list Trip) : M State unit :=
  modify (fun st => mkState (showForm st) l (isLoading st) (user st)).

Definition setIsLoading (b : bool) : M State unit :=
  modify (fun st => mkState (showForm st) (trips st) b (user st)).

(** [error && error.code !== '42P01'] *)
Definition reportable (error : option PostgrestError) : option PostgrestError :=
  match error with
  | Some e => if bool_decide (code e = "42P01") then None else Some e
  | None => None
  end.

Definition dataLoadError (e : PostgrestError) : Toast :=
  mkToast "Data Load Error"
          (if truthy (message e)
           then "Could not load your trips: " +:+ message e
           else "Could not load your trips. Using offline data.")
          destructive.

(** [fetchTrips]; [getUser] and [selected] are the backend's answers. *)
Definition fetchTrips
      (getUser : reply (option User))
      (selected : reply (response Trip)) : M State unit :=
  try_catch_finally
    (u <- await auth_getUser getUser ;;
     match u with
     | None => return_
     | Some u =>
         r <- await (from_trips_select (Some (Supabase.id u))) selected ;;
         match reportable (error r) with
         | Some e =>
             emit (console_error "Fetch trips error:") ;;;
             toast (dataLoadError e) ;;;
             return_
         | None =>
             setTrips (default [] (data r))
         end
     end)
    (fun error =>
       emit (console_error "Unexpected error fetching trips:") ;;;
       toast (mkToast "Unexpected Error" error destructive))
    (setIsLoading false).

End Dashboard.

(** ** ScientistDashboard.tsx: the research view *)

Module ScientistDashboard.
Import JS Supabase Eff.
Local Open Scope js_scope.

Record Trip := mkTrip {
    id : Z;
    user_id : string;
    trip_number : option string;
    origin : string;
    destination : string;
    mode : string;
    start_time : option string;
    end_time : option string;
    companions : option string;
    created_at : option string
  }.

Record State := mkState {
    trips : list Trip;
    filteredTrips : list Trip;
    searchTerm : string;
    modeFilter : string;
    isLoading : bool
  }.

Definition initial : State := mkState [] [] "" "all" true.

Definition setTrips (l : list Trip) : M State unit :=
  modify (fun st =>
    mkState l (filteredTrips st) (searchTerm st) (modeFilter st) (isLoading st)).

Definition setFilteredTrips (l : list Trip) : M State unit :=
  modify (fun st =>
    mkState (trips st) l (searchTerm st) (modeFilter st) (isLoading st)).

Definition setIsLoading (b : bool) : M State unit :=
  modify (fun st =>
    mkState (trips st) (filteredTrips st) (searchTerm st) (modeFilter st) b).

(** The callback of the first [filter]; [toLowerCase] is the engine's
    [String.prototype.toLowerCase]. *)
Definition matchesSearch (toLowerCase : string -> string)
    (searchTerm : string) (trip : Trip) : bool :=
  includes (toLowerCase (origin trip)) (toLowerCase searchTerm) ||
  includes (toLowerCase (destination trip)) (toLowerCase searchTerm).

(** The callback of the second [filter]. *)
Definition matchesMode (modeFilter : string) (trip : Trip) : bool :=
  bool_decide (mode trip = modeFilter).

(** The body of the filtering effect, up to [setFilteredTrips]. *)
Definition filtered (toLowerCase : string -> string)
    (trips : list Trip) (searchTerm modeFilter : string) : list Trip :=
  let filtered := trips in
  let filtered :=
    if truthy searchTerm
    then List.filter (matchesSearch toLowerCase searchTerm) filtered
    else filtered in
  let filtered :=
    if negb (bool_decide (modeFilter = "all"))
    then List.filter (matchesMode modeFilter) filtered
    else filtered in
  filtered.

(** The effect with dependencies [[searchTerm, modeFilter, trips]]: React
    runs it after the first render and after every render in which one of
    the three is not the value it was, and it is the only place that sets
    [filteredTrips], the list the page shows. *)
Definition filterEffect (toLowerCase : string -> string) : M State unit :=
  st <- get ;;
  setFilteredTrips
    (filtered toLowerCase (trips st) (searchTerm st) (modeFilter st)).

(** [error && error.code !== '42P01'] *)
Definition reportable (error : option PostgrestError) : bool :=
  match error with
  | Some e => negb (bool_decide (code e = "42P01"))
  | None => false
  end.

Definition dataLoadError : Toast :=
  mkToast "Data Load Error"
          "Could not load trip data. Please ensure database is set up."
          destructive.

(** [fetchAllTrips]; [selected] is the backend's answer. *)
Definition fetchAllTrips (selected : reply (response Trip)) : M State unit :=
  try_catch_finally
    (r <- await (from_trips_select None) selected ;;
     if reportable (error r)
     then
       emit (console_error "Fetch all trips error:") ;;;
       toast dataLoadError ;;;
       return_
     else
       setTrips (default [] (data r)))
    (fun error => emit (console_error "Unexpected error fetching trips:"))
    (setIsLoading false).

(** What the accumulator of the [reduce] holds under a key: a count, or
    the text that [+ 1] makes of a member inherited from
    [Object.prototype]. *)
Inductive Value :=
  | number (n : nat)
  | text (s : string).

(** The own properties of the accumulator object, which starts as [{}], in
    the order they were created. *)
Definition Counts : Type := list (string * Value).

(** The function-valued properties every plain object inherits. *)
Definition inherited_functions : list string :=
  ["constructor"; "toString"; "toLocaleString"; "valueOf"; "hasOwnProperty";
   "isPrototypeOf"; "propertyIsEnumerable"; "__defineGetter__";
   "__defineSetter__"; "__lookupGetter__"; "__lookupSetter__"].

(** The function found under an inherited name: [constructor] is [Object],
    the others are named as their key. *)
Definition native_name (key : string) : string :=
  if bool_decide (key = "constructor") then "Object" else key.

(** [String(f)] for a built-in function, as V8 and JavaScriptCore print
    it. *)
Definition native_source (name : string) : string :=
  "function " +:+ name +:+ "() { [native code] }".

(** What [acc[key]] evaluates to. *)
Inductive Member :=
  | own (v : Value)
  | the_prototype
  | native (name : string)
  | undefined.

Fixpoint own_property (acc : Counts) (key : string) : option Value :=
  match acc with
  | [] => None
  | (k, v) :: rest => if decide (k = key) then Some v else own_property rest key
  end.

(** [acc[key]]: the own property, else what [Object.prototype] has under
    that name. *)
Definition read (acc : Counts) (key : string) : Member :=
  match own_property acc key with
  | Some v => own v
  | None =>
      if bool_decide (key = "__proto__") then the_prototype
      else if bool_decide (key ∈ inherited_functions)
           then native (native_name key)
           else undefined
  end.

(** [(m || 0) + 1]: a number grows by one; anything else that is truthy is
    turned into text and has "1" appended. *)
Definition plus_one (m : Member) : Value :=
  match m with
  | undefined => number 1
  | own (number n) => number (n + 1)
  | own (text s) => if truthy s then text (s +:+ "1") else number 1
  | the_prototype => text ("[object Object]" +:+ "1")
  | native name => text (native_source name +:+ "1")
  end.

Fixpoint set_own (acc : Counts) (key : string) (value : Value) : Counts :=
  match acc with
  | [] => [(key, value)]
  | (k, v) :: rest =>
      if decide (k = key) then (k, value) :: rest
      else (k, v) :: set_own rest key value
  end.

(** [acc[key] = value]: assigning a number or a text to [__proto__] is
    ignored; any other key becomes or stays an own property. *)
Definition write (acc : Counts) (key : string) (value : Value) : Counts :=
  if bool_decide (key = "__proto__") then acc else set_own acc key value.

(** The callback of the [reduce]:
    [acc[trip.mode] = (acc[trip.mode] || 0) + 1; return acc]. *)
Definition tally (acc : Counts) (trip : Trip) : Counts :=
  write acc (mode trip) (plus_one (read acc (mode trip))).

(** The [reduce] of [getStats]. *)
Definition modeCounts (filteredTrips : list Trip) : Counts :=
  fold_left tally filteredTrips [].

Definition digit (c : ascii) : option N :=
  let n := N_of_ascii c in
  if ((48 <=? n) && (n <=? 57))%N then Some (n - 48)%N else None.

Fixpoint digits (s : string) (value : N) : option N :=
  match s with
  | EmptyString => Some value
  | String c s' =>
      match digit c with
      | Some d => digits s' (10 * value + d)%N
      | None => None
      end
  end.

(** The array index a key stands for: the key is the decimal text of a
    number below 2^32 - 1. *)
Definition array_index (key : string) : option N :=
  match key with
  | EmptyString => None
  | String _ _ =>
      match digits key 0 with
      | Some n =>
          if (n <? 4294967295)%N
             && bool_decide (Number_toString (Z.of_N n) = key)
          then Some n else None
      | None => None
      end
  end.

(** The properties whose key is an array index, each with its index. *)
Definition indexed {V} (acc : list (string * V)) : list (N * (string * V)) :=
  omap (fun e => match array_index (fst e) with
                 | Some i => Some (i, e)
                 | None => None
                 end) acc.

Fixpoint insert_by_index {V} (x : N * (string * V))
    (l : list (N * (string * V))) : list (N * (string * V)) :=
  match l with
  | [] => [x]
  | y :: rest =>
      if (fst x <? fst y)%N then x :: l else y :: insert_by_index x rest
  end.

(** [Object.entries(acc)]: the properties whose key is an array index come
    first, by ascending index, then the others in the order they were
    created. *)
Definition entries {V} (acc : list (string * V)) : list (string * V) :=
  map snd (foldr insert_by_index [] (indexed acc))
  ++ List.filter (fun e => match array_index (fst e) with
                           | Some _ => false
                           | None => true
                           end) acc.

(** [b - a] as the sort reads it: the difference of two numbers; with a
    text on either side it is [NaN], which the sort takes as 0. *)
Definition difference (b a : Value) : Z :=
  match b, a with
  | number m, number n => Z.of_nat m - Z.of_nat n
  | _, _ => 0
  end.

(** [.sort(([,a], [,b]) => b - a)]: a stable sort, larger counts first.
    (When some value is a text the comparison is not an ordering and the
    language leaves the resulting order to the engine; this is the order a
    stable insertion gives.) *)
Fixpoint insert_sorted (x : string * Value) (l : Counts) : Counts :=
  match l with
  | [] => [x]
  | y :: rest =>
      if (0 <? difference (snd y) (snd x))%Z
      then y :: insert_sorted x rest
      else x :: l
  end.

Definition sort (l : Counts) : Counts := foldr insert_sorted [] l.

Record Stats := mkStats {
    totalTrips : nat;
    uniqueUsers : nat;
    topMode : string
  }.

(** [`${v}`] *)
Definition Value_toString (v : Value) : string :=
  match v with
  | number n => Number_toString (Z.of_nat n)
  | text s => s
  end.

(** [`${topMode[0]} (${topMode[1]} trips)`] *)
Definition topModeText (entry : string * Value) : string :=
  fst entry +:+ " (" +:+ Value_toString (snd entry) +:+ " trips)".

Definition getStats (filteredTrips : list Trip) : Stats :=
  let totalTrips := length filteredTrips in
  let uniqueUsers :=
    size (list_to_set (map user_id filteredTrips) : gset string) in
  let modeCounts := modeCounts filteredTrips in
  let topMode := head (sort (entries modeCounts)) in
  {| totalTrips := totalTrips;
     uniqueUsers := uniqueUsers;
     topMode := match topMode with
                | Some entry => topModeText entry
                | None => "N/A"
                end |}.

Definition header : list string :=
  ["Trip ID"; "User ID"; "Trip Number"; "Origin"; "Destination"; "Mode";
   "Start Time"; "End Time"; "Companions"].

(** The array built for one trip. *)
Definition cells (trip : Trip) : list string :=
  [Number_toString (id trip);
   user_id trip;
   or_empty (trip_number trip);
   origin trip;
   destination trip;
   mode trip;
   or_empty (start_time trip);
   or_empty (end_time trip);
   or_empty (companions trip)].

Definition csvContent (filteredTrips : list Trip) : string :=
  join (String newline "")
       (map (join ",") (header :: map cells filteredTrips)).

(** [exportData]: the file handed to the browser. *)
Definition exportData : M State unit :=
  st <- get ;;
  emit (downloaded "natpac_trip_data.csv" "text/csv"
                   (csvContent (filteredTrips st))).

End ScientistDashboard.

(** ** Reading an exported file back

    The repository only writes the file.  The reader the round-trip
    property speaks of takes the text apart the way it was put together:
    lines at line feeds, cells at commas. *)

Module Csv.
Import JS.

(** [s.split(sep)] for a one-character separator. *)
Fixpoint split (sep : ascii) (s : string) : list string :=
  match s with
  | EmptyString => [EmptyString]
  | String c s' =>
      if decide (c = sep) then EmptyString :: split sep s'
      else match split sep s' with
           | [] => [String c EmptyString]
           | cell :: rest => String c cell :: rest
           end
  end.

Definition lines (text : string) : list string := split newline text.

Definition read (text : string) : list (list string) :=
  map (split comma) (lines text).

(** The first line is the header, the others are the data rows. *)
Definition header_row (text : string) : option (list string) := head (read text).

Definition data_rows (text : string) : list (list string) := tail (read text).

(** A character occurs in a string. *)
Fixpoint occurs (c : ascii) (s : string) : bool :=
  match s with
  | EmptyString => false
  | String c' s' => bool_decide (c' = c) || occurs c s'
  end.

(** The text cells of a trip's row: all but the numeric id. *)
Definition texts (trip : ScientistDashboard.Trip) : list string :=
  [ScientistDashboard.user_id trip;
   or_empty (ScientistDashboard.trip_number trip);
   ScientistDashboard.origin trip;
   ScientistDashboard.destination trip;
   ScientistDashboard.mode trip;
   or_empty (ScientistDashboard.start_time trip);
   or_empty (ScientistDashboard.end_time trip);
   or_empty (ScientistDashboard.companions trip)].

(** No text cell of any of the trips contains the character. *)
Definition free_of (c : ascii) (trips : list ScientistDashboard.Trip) : bool :=
  forallb (fun trip => forallb (fun cell => negb (occurs c cell)) (texts trip))
          trips.

End Csv.

(** ** Counting in a plain map

    What the tally of [getStats] comes to when no mode names a member that
    objects inherit: a map from mode names to counts, kept in the order the
    names first appeared. *)

Module Tally.
Import JS.

Definition Counts : Type := list (string * nat).

(** [acc[key]] *)
Fixpoint read (acc : Counts) (key : string) : option nat :=
  match acc with
  | [] => None
  | (k, v) :: rest => if decide (k = key) then Some v else read rest key
  end.

(** [acc[key] = value] *)
Fixpoint write (acc : Counts) (key : string) (value : nat) : Counts :=
  match acc with
  | [] => [(key, value)]
  | (k, v) :: rest =>
      if decide (k = key) then (k, value) :: rest
      else (k, v) :: write rest key value
  end.

(** The callback of the [reduce]:
    [acc[trip.mode] = (acc[trip.mode] || 0) + 1; return acc]. *)
Definition tally (acc : Counts) (trip : ScientistDashboard.Trip) : Counts :=
  write acc (ScientistDashboard.mode trip)
        (default 0 (read acc (ScientistDashboard.mode trip)) + 1).

(** The [reduce] of [getStats]. *)
Definition modeCounts (filteredTrips : list ScientistDashboard.Trip) : Counts :=
  fold_left tally filteredTrips [].

(** [.sort(([,a], [,b]) => b - a)]: a stable sort, larger counts first. *)
Fixpoint insert_desc (x : string * nat) (l : Counts) : Counts :=
  match l with
  | [] => [x]
  | y :: rest => if snd x <? snd y then y :: insert_desc x rest else x :: l
  end.

Definition sort_desc (l : Counts) : Counts := foldr insert_desc [] l.

(** The key names no member inherited from [Object.prototype]. *)
Definition ordinary (key : string) : bool :=
  negb (bool_decide (key = "__proto__"))
  && negb (bool_decide (key ∈ ScientistDashboard.inherited_functions)).

(** The key is ordinary and is not an array index. *)
Definition plain (key : string) : bool :=
  ordinary key
  && match ScientistDashboard.array_index key with
     | Some _ => false
     | None => true
     end.

(** A count as the accumulator of [getStats] holds it. *)
Definition as_number (e : string * nat) : string * ScientistDashboard.Value :=
  (fst e, ScientistDashboard.number (snd e)).

End Tally.

(** ** The specification's words for the research view's filter *)

Module Spec.
Import JS.






(** How many of the trips have the given mode. *)
Definition trips_with_mode (m : string) (trips : list ScientistDashboard.Trip)
    : nat :=
  length (List.filter (fun trip => bool_decide (ScientistDashboard.mode trip = m))
                      trips).

(** The modes a trip may have, as the data model lists them. *)
Definition modes : list string :=
  ["walking"; "bicycle"; "motorcycle"; "car"; "bus"; "train"; "metro";
   "auto-rickshaw"; "taxi"; "other"].

End Spec.

(** ** The invariant of the submission flow *)

Module Invariants.
Import JS Supabase Eff.

(** The values of the mode [Select]'s items, [mode.toLowerCase()] for each
    of [transportModes]. *)
Definition mode_values : list string :=
  ["walking"; "bicycle"; "motorcycle"; "car"; "bus"; "train"; "metro";
   "auto rickshaw"; "taxi"; "other"].

(** A row with the three required fields, its mode one of the [Select]'s
    values. *)
Definition well_formed_row (row : trips_row) : Prop :=
  origin row <> "" /\ destination row <> "" /\ mode row ∈ mode_values.

(** What every event preserves: the form's mode is still unset or one of
    the [Select]'s values, and all rows of the table are well formed. *)
Definition form_invariant (w : World TripForm.State) : Prop :=
  (TripForm.mode (TripForm.trip (local w)) = ""
   \/ TripForm.mode (TripForm.trip (local w)) ∈ mode_values)
  /\ Forall well_formed_row (trips (db w)).

(** The order the sort of [getStats] puts entries in: larger counts
    first. *)
Definition descending : relation (string * nat) :=
  fun x y => snd y <= snd x.

End Invariants.

(** ** Sample inputs *)

Module Samples.
Import JS Supabase Eff.

Definition alice : User := mkUser "7f3c" "alice@example.org".

Definition no_tables : Database := mkDatabase ∅ [].

Definition form_without_destination : World TripForm.State :=
  mkWorld
    (TripForm.mkState
       (TripForm.mkTrip "T001" "Pattom" "" "bus" "" "" "two friends") false)
    [] no_tables.

Definition complete_form : World TripForm.State :=
  mkWorld
    (TripForm.mkState
       (TripForm.mkTrip "T002" "Pattom" "Kowdiar" "bus" "2025-01-05T09:30" ""
                        "two friends") false)
    [] no_tables.

(** Fill in origin and destination, pick "Auto Rickshaw", submit as a
    signed-in user, and the insert succeeds. *)
Definition rickshaw_ride : list TripForm.Event :=
  [TripForm.mounted "2025-01-05T09:30:00.000Z";
   TripForm.typed TripForm.k_origin "Pattom";
   TripForm.typed TripForm.k_destination "Kowdiar";
   TripForm.selected "Auto Rickshaw";
   TripForm.submitted (Resolved (Some alice)) (Resolved None)].

(** A trip whose companions text, typed in a multi-line text area, has a
    line feed in it. *)
Definition family_trip : ScientistDashboard.Trip :=
  ScientistDashboard.mkTrip 17 "7f3c" (Some "T003") "Pattom" "Kowdiar" "car"
    (Some "2025-01-05T09:30") None
    (Some ("wife" +:+ String newline "two children")) None.

(** A trip whose cells have neither line feeds nor commas. *)
Definition bus_trip : ScientistDashboard.Trip :=
  ScientistDashboard.mkTrip 18 "7f3c" None "Central Station" "Museum" "bus"
    (Some "2025-01-06T08:00") (Some "2025-01-06T08:40") None None.

(** A trip whose origin has a comma in it. *)
Definition station_trip : ScientistDashboard.Trip :=
  ScientistDashboard.mkTrip 19 "7f3c" None "Thampanoor, Central Station"
    "Museum" "bus" None None None None.

Definition research_view (shown : list ScientistDashboard.Trip)
    : World ScientistDashboard.State :=
  mkWorld (ScientistDashboard.mkState shown shown "" "all" false) [] no_tables.

Definition checked_consent : World ConsentPage.State :=
  mkWorld (ConsentPage.mkState true false) [] no_tables.

Definition table_missing : PostgrestError :=
  mkError "relation public.profiles does not exist" "42P01".

Definition permission_denied : PostgrestError :=
  mkError "permission denied for table trips" "42501".

End Samples.

(** ** More of TripForm.tsx: reading a field, counting submissions *)

Module TripFields.
Import JS Supabase Eff TripForm.

Global Instance Field_eq_dec : EqDecision Field.
Proof. solve_decision. Defined.

(** [trip[field]] *)
Definition field_value (field : Field) (trip : Trip) : string :=
  match field with
  | k_trip_number => trip_number trip
  | k_origin => origin trip
  | k_destination => destination trip
  | k_mode => mode trip
  | k_start_time => start_time trip
  | k_end_time => end_time trip
  | k_companions => companions trip
  end.

(** The submission passes the guard of [handleSubmit]. *)
Definition complete (trip : Trip) : bool :=
  truthy (origin trip) && truthy (destination trip) && truthy (mode trip).

(** The row [handleSubmit] builds for a user. *)
Definition tripData (user : User) (trip : Trip) : trips_row :=
  {| user_id := id user;
     Supabase.trip_number := or_null (trip_number trip);
     Supabase.origin := origin trip;
     Supabase.destination := destination trip;
     Supabase.mode := mode trip;
     Supabase.start_time := or_null (start_time trip);
     Supabase.end_time := or_null (end_time trip);
     Supabase.companions := or_null (companions trip) |}.

Definition is_submission (ev : Event) : bool :=
  match ev with
  | submitted _ _ => true
  | _ => false
  end.

(** How many of the events are submissions. *)
Definition submissions (evs : list Event) : nat :=
  length (List.filter is_submission evs).

End TripFields.

(** ** More of Index.tsx: the events of the session machine *)

Module Session.
Import Supabase Index.

(** What reaches the [Index] component: the initial session lookup, an
    auth-change notification, the sign-in page's success callback (with
    what [getSession()] resolves with), the consent page's callback and
    the navigation's view change. *)
Inductive Event :=
  | initial_session (session : option Session)
  | auth_change (event : AuthChangeEvent) (session : option Session)
  | auth_success (session : option Session)
  | consent_given
  | view_change (v : View).

Definition step (ev : Event) (st : State) : State :=
  match ev with
  | initial_session session => onInitialSession session st
  | auth_change event session => onAuthStateChange event session st
  | auth_success session => onAuthSuccess session st
  | consent_given => onConsentGiven st
  | view_change v => onViewChange v st
  end.

Fixpoint run (evs : list Event) (st : State) : State :=
  match evs with
  | [] => st
  | ev :: rest => run rest (step ev st)
  end.

Definition is_dashboard (s : Screen) : bool :=
  match s with
  | Dashboard | ScientistDashboard => true
  | _ => false
  end.

Definition is_consent_given (ev : Event) : bool :=
  match ev with
  | consent_given => true
  | _ => false
  end.

Definition is_signed_out (ev : Event) : bool :=
  match ev with
  | auth_change SIGNED_OUT _ => true
  | _ => false
  end.

(** The view the last view change of the events asked for, [v] when there
    is none. *)
Fixpoint last_view (evs : list Event) (v : View) : View :=
  match evs with
  | [] => v
  | view_change v' :: rest => last_view rest v'
  | _ :: rest => last_view rest v
  end.

End Session.

(** ** More of Dashboard.tsx: the user lookup, the refresh, the cards *)

Module DashboardView.
Import JS Supabase Eff Dashboard.
Local Open Scope js_scope.

Definition setShowForm (b : bool) : M State unit :=
  modify (fun st => mkState b (trips st) (isLoading st) (user st)).

Definition setUser (u : option User) : M State unit :=
  modify (fun st => mkState (showForm st) (trips st) (isLoading st) u).

(** [getUser]; it has no [try] block. *)
Definition getUser (r : reply (option User)) : M State unit :=
  u <- await auth_getUser r ;;
  setUser u.

(** [handleTripSaved]: the callback given to the trip form. *)
Definition handleTripSaved
    (getUser : reply (option User)) (selected : reply (response Trip))
  : M State unit :=
  setShowForm false ;;;
  fetchTrips getUser selected.

(** Truthiness of a string that may be [null] or [undefined]. *)
Definition truthy_opt (o : option string) : bool :=
  match o with
  | Some s => truthy s
  | None => false
  end.

(** [trips.length], the "Total Trips" card. *)
Definition totalTrips (trips : list Trip) : nat := length trips.

(** [new Set(trips.flatMap(t => [t.origin, t.destination])).size], the
    "Unique Locations" card. *)
Definition uniqueLocations (trips : list Trip) : nat :=
  size (list_to_set (flat_map (fun t => [origin t; destination t]) trips)
        : gset string).

(** [trips.filter(t => t.companions).length], the "Group Trips" card. *)
Definition groupTrips (trips : list Trip) : nat :=
  length (List.filter (fun t => truthy_opt (companions t)) trips).

End DashboardView.

(** ** AuthPage.tsx *)

Module AuthPage.
Import JS Supabase Eff.
Local Open Scope js_scope.

Record LoginData := mkLoginData { email : string; password : string }.

Record SignupData := mkSignupData {
  signup_email : string;
  signup_password : string;
  confirmPassword : string
}.

(** The user object of an auth response. *)
Record AuthUser := mkAuthUser {
  id : string;
  user_email : string;
  email_confirmed_at : option string
}.

Record AuthError := mkAuthError { message : string }.

(** [{ data, error }] as [signInWithPassword] and [signUp] resolve with;
    [user] stands for [data.user]. *)
Record AuthResponse := mkAuthResponse {
  user : option AuthUser;
  error : option AuthError
}.

(** The backend calls of the page. *)
Inductive Request :=
  | signInWithPassword (email password : string)
  | signUp (email password : string)
  | from_profiles_insert (id : string) (consent : bool).

(** What the page does besides showing notices: a backend call, or the
    [onAuthSuccess] callback. *)
Inductive Happening :=
  | requested (r : Request)
  | onAuthSuccess.

Global Instance Request_eq_dec : EqDecision Request.
Proof. solve_decision. Defined.

Global Instance Happening_eq_dec : EqDecision Happening.
Proof. solve_decision. Defined.

(** The component's state, with the page's calls and callbacks in the order
    they happened. *)
Record State := mkState {
  isLoading : bool;
  loginData : LoginData;
  signupData : SignupData;
  happenings : list Happening
}.

Definition setIsLoading (b : bool) : M State unit :=
  modify (fun st => mkState b (loginData st) (signupData st) (happenings st)).

Definition happen (h : Happening) : M State unit :=
  modify (fun st =>
    mkState (isLoading st) (loginData st) (signupData st) (happenings st ++ [h])).

(** [await] of one of the page's calls. *)
Definition request {A} (r : Request) (answer : reply A) : M State A :=
  happen (requested r) ;;;
  match answer with
  | Resolved a => ret a
  | Rejected e => throw e
  end.

Definition unexpectedError : Toast :=
  mkToast "Error" "An unexpected error occurred." destructive.

Definition welcomeBack : Toast :=
  mkToast "Welcome Back!" "Successfully logged in." success.

Definition passwordMismatch : Toast :=
  mkToast "Password Mismatch" "Passwords do not match." destructive.

(** Truthiness of [data.user.email_confirmed_at]. *)
Definition confirmed (u : AuthUser) : bool :=
  match email_confirmed_at u with
  | Some s => truthy s
  | None => false
  end.

Definition accountCreated (u : AuthUser) : Toast :=
  mkToast "Account Created!"
          (if confirmed u
           then "Welcome to NATPAC Travel Data Collection!"
           else "Please check your email to verify your account.")
          success.

(** [handleLogin]; [signedIn] is the backend's answer. *)
Definition handleLogin (signedIn : reply AuthResponse) : M State unit :=
  st <- get ;;
  setIsLoading true ;;;
  try_catch_finally
    (r <- request (signInWithPassword (email (loginData st))
                                      (password (loginData st))) signedIn ;;
     match error r with
     | Some e =>
         toast (mkToast "Login Failed" (message e) destructive) ;;;
         return_
     | None =>
         match user r with
         | Some _ =>
             toast welcomeBack ;;;
             happen onAuthSuccess
         | None => ret tt
         end
     end)
    (fun _ => toast unexpectedError)
    (setIsLoading false).

(** [handleSignup]; [signedUp] and [profileInserted] are the backend's
    answers. *)
Definition handleSignup
    (signedUp : reply AuthResponse)
    (profileInserted : reply (option PostgrestError)) : M State unit :=
  st <- get ;;
  if negb (bool_decide (signup_password (signupData st)
                        = confirmPassword (signupData st)))
  then
    toast passwordMismatch ;;;
    return_
  else
    setIsLoading true ;;;
    try_catch_finally
      (r <- request (signUp (signup_email (signupData st))
                            (signup_password (signupData st))) signedUp ;;
       match error r with
       | Some e =>
           toast (mkToast "Signup Failed" (message e) destructive) ;;;
           return_
       | None =>
           match user r with
           | Some u =>
               _ <- request (from_profiles_insert (id u) false)
                            profileInserted ;;
               toast (accountCreated u) ;;;
               if confirmed u then happen onAuthSuccess else ret tt
           | None => ret tt
           end
       end)
      (fun _ => toast unexpectedError)
      (setIsLoading false).

(** How many times [onAuthSuccess] was called. *)
Definition successes (hs : list Happening) : nat :=
  length (List.filter (fun h => bool_decide (h = onAuthSuccess)) hs).

(** The backend calls among what happened. *)
Definition requests (hs : list Happening) : list Request :=
  omap (fun h => match h with requested r => Some r | _ => None end) hs.

End AuthPage.

(** ** service-worker.js *)

Module ServiceWorker.
Import Supabase.

Record Request := mkRequest { method : string; url : string }.

Record Response := mkResponse { ok : bool; body : string }.

(** The cache 'travel-log-cache': the stored response of each URL. *)
Abbreviation Cache := (gmap string Response).

(** [cache.match(event.request)]: a stored response answers a GET request
    for its URL; a request with another method matches nothing. *)
Definition cache_match (cache : Cache) (request : Request) : option Response :=
  if bool_decide (method request = "GET") then cache !! url request else None.

(** [cache.put(event.request, networkResponse.clone())] *)
Definition cache_put (cache : Cache) (request : Request) (r : Response) : Cache :=
  <[url request := r]> cache.

(** What handling one fetch event comes to: what the page is answered with
    (a response, or the rejection of [fetch]), whether the network was
    asked, and the cache afterwards. *)
Record Outcome := mkOutcome {
  respondWith : reply Response;
  fetched : bool;
  cache_after : Cache
}.

(** The fetch listener; [network] is what [fetch(event.request)] would
    settle with. *)
Definition onFetch (cache : Cache) (request : Request) (network : reply Response)
  : Outcome :=
  match cache_match cache request with
  | Some response => mkOutcome (Resolved response) false cache
  | None =>
      match network with
      | Resolved networkResponse =>
          if bool_decide (method request = "GET") && ok networkResponse
          then mkOutcome (Resolved networkResponse) true
                         (cache_put cache request networkResponse)
          else mkOutcome (Resolved networkResponse) true cache
      | Rejected e => mkOutcome (Rejected e) true cache
      end
  end.

(** The cache after a series of fetch events. *)
Fixpoint serve (events : list (Request * reply Response)) (cache : Cache) : Cache :=
  match events with
  | [] => cache
  | (request, network) :: rest =>
      serve rest (cache_after (onFetch cache request network))
  end.

End ServiceWorker.

(** ** Measures used to state properties of the research view *)

Module Measures.
Import JS.

(** How many times a character occurs in a string. *)
Fixpoint count_char (c : ascii) (s : string) : nat :=
  match s with
  | EmptyString => 0
  | String c' s' => (if bool_decide (c' = c) then 1 else 0) + count_char c s'
  end.

(** The line feeds in the text cells of a trip. *)
Definition line_feeds (trip : ScientistDashboard.Trip) : nat :=
  sum_list (map (count_char newline) (Csv.texts trip)).

(** The two tests of the research view's filter taken together. *)
Definition keeps (toLowerCase : string -> string)
    (searchTerm modeFilter : string)
    (trip : ScientistDashboard.Trip) : bool :=
  (negb (truthy searchTerm)
   || ScientistDashboard.matchesSearch toLowerCase searchTerm trip)
  && (bool_decide (modeFilter = "all")
      || ScientistDashboard.matchesMode modeFilter trip).

(** The sum of the counts of a plain map. *)
Definition counted (acc : Tally.Counts) : nat :=
  sum_list (map snd acc).

(** The strings of a list in the order of their first appearance: walking
    the list, each string not met before is added at the end. *)
Fixpoint add_new (seen l : list string) : list string :=
  match l with
  | [] => seen
  | x :: rest =>
      add_new (if bool_decide (x ∈ seen) then seen else seen ++ [x]) rest
  end.

Definition first_appearances (l : list string) : list string := add_new [] l.

End Measures.

(** ** More sample inputs *)

Module Examples.
Import JS Supabase Eff.


(** A trip whose mode is the name of the accessor every object inherits. *)
Definition proto_trip : ScientistDashboard.Trip :=
  ScientistDashboard.mkTrip 20 "7f3c" None "Pattom" "Kowdiar" "__proto__"
    None None None None.

(** A trip whose mode is the name of a function every object inherits. *)
Definition constructor_trip : ScientistDashboard.Trip :=
  ScientistDashboard.mkTrip 22 "7f3c" None "Pattom" "Kowdiar" "constructor"
    None None None None.

(** A trip whose mode is the text of a number, a bus line say. *)
Definition line_7_trip : ScientistDashboard.Trip :=
  ScientistDashboard.mkTrip 21 "7f3c" None "Pattom" "Kowdiar" "7"
    None None None None.

Definition own_trip : Dashboard.Trip :=
  Dashboard.mkTrip "41" (Some "T001") "Pattom" "Kowdiar" "bus"
                   (Some "2025-01-05T09:30") None (Some "two friends") None.

Definition dashboard_with (shown : list Dashboard.Trip) : World Dashboard.State :=
  mkWorld (Dashboard.mkState true shown true None) [] Samples.no_tables.


Definition mistyped_sign_up : World AuthPage.State :=
  mkWorld
    (AuthPage.mkState false
       (AuthPage.mkLoginData "" "")
       (AuthPage.mkSignupData "alice@example.org" "secret1" "secert1")
       [])
    [] Samples.no_tables.

Definition unconfirmed : AuthPage.AuthUser :=
  AuthPage.mkAuthUser "7f3c" "alice@example.org" None.




End Examples.

(** * Properties *)

Import JS Supabase Eff Invariants.

(** ** Effect logs *)

Lemma toasts_app (es es' : list Effect) :
  toasts (es ++ es') = toasts es ++ toasts es'.
Proof. apply omap_app. Qed.

Lemma calls_app (es es' : list Effect) :
  calls (es ++ es') = calls es ++ calls es'.
Proof. apply omap_app. Qed.

Lemma invocations_app (cb : Callback) (es es' : list Effect) :
  invocations cb (es ++ es') = invocations cb es + invocations cb es'.
Proof.
  unfold invocations, callbacks.
  now rewrite omap_app, filter_app, length_app.
Qed.


Lemma truthy_nonempty (s : string) : truthy s = true <-> s <> "".
Proof. destruct s; simpl; split; congruence. Qed.

(** ** Trip submission *)

(** C1: a submission whose origin, destination or mode is empty issues no
    backend call at all (neither the user lookup nor the insert), shows the
    "Missing Information" notice and nothing else, and leaves the seven
    form fields, the busy flag and the tables as they were. *)
Theorem C1_incomplete_submission_rejected
    (w : World TripForm.State)
    (getUser : reply (option User))
    (inserted : reply (option PostgrestError)) :
  let trip := TripForm.trip (local w) in
  TripForm.origin trip = "" \/ TripForm.destination trip = ""
    \/ TripForm.mode trip = "" ->
  let w' := exec (TripForm.handleSubmit getUser inserted) w in
  calls (effects w') = calls (effects w) /\
  effects w' = effects w ++ [toasted TripForm.missingInformation] /\
  local w' = local w /\
  db w' = db w.
Proof.
  destruct w as [[[tn o d m st en co] busy] es tables]; simpl.
  intros H.
  assert (Hguard : negb (truthy o) || negb (truthy d) || negb (truthy m) = true).
  { destruct H as [-> | [-> | ->]]; simpl;
      rewrite ?orb_true_r; reflexivity. }
  unfold exec, TripForm.handleSubmit, bind, get; simpl.
  rewrite Hguard; simpl.
  rewrite calls_app; simpl. rewrite app_nil_r. auto.
Qed.

Lemma C1_incomplete_submission_rejected_witness :
  let w := Samples.form_without_destination in
  let w' := exec (TripForm.handleSubmit (Resolved (Some Samples.alice))
                                        (Resolved None)) w in
  (TripForm.origin (TripForm.trip (local w)) = ""
   \/ TripForm.destination (TripForm.trip (local w)) = ""
   \/ TripForm.mode (TripForm.trip (local w)) = "") /\
  calls (effects w') = calls (effects w) /\
  effects w' = effects w ++ [toasted TripForm.missingInformation] /\
  local w' = local w /\
  db w' = db w.
Proof.
  assert (H : TripForm.origin (TripForm.trip (local Samples.form_without_destination)) = ""
   \/ TripForm.destination (TripForm.trip (local Samples.form_without_destination)) = ""
   \/ TripForm.mode (TripForm.trip (local Samples.form_without_destination)) = "")
    by (right; left; reflexivity).
  split; [exact H |].
  exact (C1_incomplete_submission_rejected
           Samples.form_without_destination
           (Resolved (Some Samples.alice)) (Resolved None) H).
Defined.

(** C7 (as amended): a complete submission by a signed-in user whose insert
    succeeds resets the form to its seven empty defaults and invokes the
    parent's refresh callback exactly once; one whose insert returns an
    error shows one notice, whose text is the backend's message when that
    message is not empty and "Failed to save trip data." when it is,
    keeps the form contents, and does not invoke the refresh callback. *)
Theorem C7_insert_outcome
    (w : World TripForm.State) (u : User) :
  let trip := TripForm.trip (local w) in
  TripForm.origin trip <> "" ->
  TripForm.destination trip <> "" ->
  TripForm.mode trip <> "" ->
  (let w' := exec (TripForm.handleSubmit (Resolved (Some u)) (Resolved None)) w in
   TripForm.trip (local w') = TripForm.mkTrip "" "" "" "" "" "" "" /\
   invocations onTripSaved (effects w')
     = invocations onTripSaved (effects w) + 1) /\
  (forall e : PostgrestError,
   let w' := exec (TripForm.handleSubmit (Resolved (Some u))
                                         (Resolved (Some e))) w in
   toasts (effects w')
     = toasts (effects w)
       ++ [mkToast "Error"
                   (if truthy (message e) then message e
                    else "Failed to save trip data.")
                   destructive] /\
   TripForm.trip (local w') = trip /\
   invocations onTripSaved (effects w') = invocations onTripSaved (effects w)).
Proof.
  destruct w as [[[tn o d m st en co] busy] es tables]; simpl.
  intros Ho Hd Hm.
  apply truthy_nonempty in Ho, Hd, Hm.
  unfold exec, TripForm.handleSubmit, TripForm.insert, bind, get,
    try_catch_finally; simpl.
  rewrite Ho, Hd, Hm; simpl.
  split.
  - split; [reflexivity |].
    rewrite <- !app_assoc, invocations_app. reflexivity.
  - intros e.
    rewrite <- !app_assoc, toasts_app, invocations_app; simpl.
    unfold or_else. repeat split. cbn. lia.
Qed.

Lemma C7_insert_outcome_witness :
  let w := Samples.complete_form in
  let trip := TripForm.trip (local w) in
  (TripForm.origin trip <> "" /\ TripForm.destination trip <> ""
   /\ TripForm.mode trip <> "") /\
  (let w' := exec (TripForm.handleSubmit (Resolved (Some Samples.alice))
                                         (Resolved None)) w in
   TripForm.trip (local w') = TripForm.mkTrip "" "" "" "" "" "" "" /\
   invocations onTripSaved (effects w')
     = invocations onTripSaved (effects w) + 1) /\
  (forall e : PostgrestError,
   let w' := exec (TripForm.handleSubmit (Resolved (Some Samples.alice))
                                         (Resolved (Some e))) w in
   toasts (effects w')
     = toasts (effects w)
       ++ [mkToast "Error"
                   (if truthy (message e) then message e
                    else "Failed to save trip data.")
                   destructive] /\
   TripForm.trip (local w') = trip /\
   invocations onTripSaved (effects w') = invocations onTripSaved (effects w)).
Proof.
  assert (Ho : TripForm.origin (TripForm.trip (local Samples.complete_form)) <> "")
    by (simpl; discriminate).
  assert (Hd : TripForm.destination (TripForm.trip (local Samples.complete_form)) <> "")
    by (simpl; discriminate).
  assert (Hm : TripForm.mode (TripForm.trip (local Samples.complete_form)) <> "")
    by (simpl; discriminate).
  split; [exact (conj Ho (conj Hd Hm)) |].
  exact (C7_insert_outcome Samples.complete_form Samples.alice Ho Hd Hm).
Defined.

(** C7 as stated fails when the backend's error carries an empty message:
    the only notice shown reads "Failed to save trip data.", so no notice
    carries the backend's message. *)
Lemma C7_empty_message_replaced :
  let e := mkError "" "57014" in
  let w' := exec (TripForm.handleSubmit (Resolved (Some Samples.alice))
                                        (Resolved (Some e)))
                 Samples.complete_form in
  toasts (effects w')
    = [mkToast "Error" "Failed to save trip data." destructive] /\
  ~ (exists t, t ∈ toasts (effects w') /\ description t = message e).
Proof.
  simpl. split; [reflexivity |].
  intros [t [Hin Hdesc]].
  apply list_elem_of_singleton in Hin. subst t. discriminate Hdesc.
Qed.

(** ** Consent *)

Lemma onConsentGiven_opens_dashboard (st : Index.State) (u : User) :
  Index.user st = Some u ->
  Index.isLoading st = false ->
  Index.render (Index.onConsentGiven st)
    = match Index.currentView st with
      | Index.user_view => Index.Dashboard
      | Index.scientist_view => Index.ScientistDashboard
      end.
Proof.
  destruct st as [usr c v l]; simpl; intros -> ->.
  unfold Index.render; simpl. reflexivity.
Qed.

Lemma consent_flag_upsert (d : Database) (uid now : string) :
  consent_flag (upsert_profile (mkProfilesRow uid true now) d) uid = true.
Proof.
  unfold consent_flag, upsert_profile; simpl.
  now rewrite lookup_insert_eq.
Qed.

(** What one consent submission by a signed-in user with the box checked
    leaves behind, by the backend's answer to the upsert. *)
Lemma consent_submission_by_user
    (w : World ConsentPage.State) (u : User)
    (upserted : reply (option PostgrestError)) (now : string) :
  ConsentPage.consent (local w) = true ->
  let w' := exec (ConsentPage.handleSubmit (Resolved (Some u)) upserted now) w in
  ConsentPage.consent (local w') = true /\
  invocations onConsentGiven (effects w')
    = invocations onConsentGiven (effects w) + 1 /\
  db w' = match upserted with
          | Resolved None =>
              upsert_profile (mkProfilesRow (id u) true now) (db w)
          | _ => db w
          end.
Proof.
  destruct w as [[c busy] es tables]; simpl; intros ->.
  unfold exec, ConsentPage.handleSubmit, ConsentPage.upsert, bind, get,
    try_catch_finally; simpl.
  destruct upserted as [[e |] | x]; simpl.
  - destruct (bool_decide (code e = "42P01")); simpl;
      rewrite <- !app_assoc, invocations_app; cbn; repeat split; lia.
  - rewrite <- !app_assoc, invocations_app; cbn; repeat split; lia.
  - rewrite <- !app_assoc, invocations_app; cbn; repeat split; lia.
Qed.

(** C3 (as amended): with the box checked and a signed-in user, two
    consent submissions in a row each invoke the consent callback once,
    whatever the backend answers to either upsert (no error, an error, or
    a rejected promise);
    and once the first upsert went through, or the flag was true already,
    the profile's consent flag is true after the first submission and
    still true after the second, whatever the second upsert's answer. *)
Theorem C3_consent_idempotent_never_blocking
    (w : World ConsentPage.State) (u : User)
    (first second : reply (option PostgrestError)) (now1 now2 : string) :
  ConsentPage.consent (local w) = true ->
  let w1 := exec (ConsentPage.handleSubmit (Resolved (Some u)) first now1) w in
  let w2 := exec (ConsentPage.handleSubmit (Resolved (Some u)) second now2) w1 in
  invocations onConsentGiven (effects w1)
    = invocations onConsentGiven (effects w) + 1 /\
  invocations onConsentGiven (effects w2)
    = invocations onConsentGiven (effects w1) + 1 /\
  (first = Resolved None ->
   consent_flag (db w1) (id u) = true /\ consent_flag (db w2) (id u) = true) /\
  (consent_flag (db w) (id u) = true ->
   consent_flag (db w1) (id u) = true /\ consent_flag (db w2) (id u) = true).
Proof.
  intros Hc w1 w2.
  destruct (consent_submission_by_user w u first now1 Hc) as (Hc1 & Hn1 & Hd1).
  fold w1 in Hc1, Hn1, Hd1.
  destruct (consent_submission_by_user w1 u second now2 Hc1) as (_ & Hn2 & Hd2).
  fold w2 in Hn2, Hd2.
  assert (Hkeep : consent_flag (db w1) (id u) = true ->
                  consent_flag (db w2) (id u) = true).
  { intros H1. rewrite Hd2.
    destruct second as [[e |] | x]; try exact H1. apply consent_flag_upsert. }
  split; [exact Hn1 |]. split; [exact Hn2 |]. split.
  - intros ->.
    assert (H1 : consent_flag (db w1) (id u) = true)
      by (rewrite Hd1; apply consent_flag_upsert).
    split; [exact H1 | exact (Hkeep H1)].
  - intros H0.
    assert (H1 : consent_flag (db w1) (id u) = true).
    { rewrite Hd1.
      destruct first as [[e |] | x]; try exact H0. apply consent_flag_upsert. }
    split; [exact H1 | exact (Hkeep H1)].
Qed.

Lemma C3_consent_idempotent_never_blocking_witness :
  let w := Samples.checked_consent in
  let u := Samples.alice in
  let w1 := exec (ConsentPage.handleSubmit (Resolved (Some u)) (Resolved None)
                    "2025-01-05T09:30:00.000Z") w in
  let w2 := exec (ConsentPage.handleSubmit (Resolved (Some u))
                    (Rejected "TypeError: Failed to fetch")
                    "2025-01-05T09:31:00.000Z") w1 in
  ConsentPage.consent (local w) = true /\
  invocations onConsentGiven (effects w1) = 1 /\
  invocations onConsentGiven (effects w2) = 2 /\
  consent_flag (db w1) (id u) = true /\ consent_flag (db w2) (id u) = true.
Proof.
  assert (Hc : ConsentPage.consent (local Samples.checked_consent) = true)
    by reflexivity.
  destruct (C3_consent_idempotent_never_blocking
              Samples.checked_consent Samples.alice
              (Resolved None) (Rejected "TypeError: Failed to fetch")
              "2025-01-05T09:30:00.000Z" "2025-01-05T09:31:00.000Z" Hc)
    as (H1 & H2 & H3 & _).
  destruct (H3 eq_refl) as [H4 H5].
  split; [exact Hc |].
  split; [exact H1 |].
  split; [rewrite H2, H1; reflexivity |].
  split; [exact H4 | exact H5].
Defined.

(** C3 as stated fails when the upserts do not go through: with a signed-in
    user and the box checked, both runs invoke the callback, and the
    profile's consent flag is false after the first run and after the
    second. *)
Lemma C3_flag_unset_when_upserts_fail :
  let w := Samples.checked_consent in
  let u := Samples.alice in
  let w1 := exec (ConsentPage.handleSubmit (Resolved (Some u))
                    (Resolved (Some Samples.table_missing))
                    "2025-01-05T09:30:00.000Z") w in
  let w2 := exec (ConsentPage.handleSubmit (Resolved (Some u))
                    (Resolved (Some Samples.table_missing))
                    "2025-01-05T09:31:00.000Z") w1 in
  ConsentPage.consent (local w) = true /\
  invocations onConsentGiven (effects w1) = 1 /\
  invocations onConsentGiven (effects w2) = 2 /\
  consent_flag (db w1) (id u) = false /\
  consent_flag (db w2) (id u) = false /\
  ~ (consent_flag (db w1) (id u) = true /\ consent_flag (db w2) (id u) = true).
Proof.
  repeat split; try reflexivity.
  intros [H _]. vm_compute in H. discriminate H.
Qed.

(** C9: a consent submission made while the backend reports no user shows
    the "Please login first." notice and stops: the user lookup is the
    only backend call (no upsert), the consent callback is not invoked,
    and the tables are untouched. *)
Theorem C9_consent_without_session
    (w : World ConsentPage.State)
    (upserted : reply (option PostgrestError)) (now : string) :
  ConsentPage.consent (local w) = true ->
  let w' := exec (ConsentPage.handleSubmit (Resolved None) upserted now) w in
  effects w' = effects w ++ [awaited auth_getUser; toasted ConsentPage.pleaseLogin] /\
  calls (effects w') = calls (effects w) ++ [auth_getUser] /\
  invocations onConsentGiven (effects w') = invocations onConsentGiven (effects w) /\
  db w' = db w.
Proof.
  destruct w as [[c busy] es tables]; simpl; intros ->.
  unfold exec, ConsentPage.handleSubmit, bind, get, try_catch_finally; simpl.
  rewrite <- !app_assoc, calls_app, invocations_app; cbn.
  repeat split. lia.
Qed.

Lemma C9_consent_without_session_witness :
  let w := Samples.checked_consent in
  let w' := exec (ConsentPage.handleSubmit (Resolved None) (Resolved None)
                    "2025-01-05T09:30:00.000Z") w in
  ConsentPage.consent (local w) = true /\
  effects w' = effects w ++ [awaited auth_getUser; toasted ConsentPage.pleaseLogin] /\
  calls (effects w') = calls (effects w) ++ [auth_getUser] /\
  invocations onConsentGiven (effects w') = invocations onConsentGiven (effects w) /\
  db w' = db w.
Proof.
  assert (Hc : ConsentPage.consent (local Samples.checked_consent) = true)
    by reflexivity.
  split; [exact Hc |].
  exact (C9_consent_without_session Samples.checked_consent (Resolved None)
           "2025-01-05T09:30:00.000Z" Hc).
Defined.

(** ** Listings *)



(** ** Session state *)

(** C6: in every state of [Index] (whatever the user, the consent flag,
    the current view and the loading flag), the signed-out notification,
    which carries no session, sets the user to [null] and the consent flag
    to [false]; what is rendered is then the sign-in page (behind the
    spinner for as long as the loading flag is up; the sign-in page itself
    when either dashboard was on screen), and the next
    successful sign-in, through [onAuthSuccess] or through a signed-in
    notification, lands on the consent page and not on a dashboard. *)
Theorem C6_signed_out_resets (st : Index.State) :
  let st' := Index.onAuthStateChange Index.SIGNED_OUT None st in
  Index.user st' = None /\
  Index.hasConsented st' = false /\
  Index.render st'
    = (if Index.isLoading st then Index.Spinner else Index.AuthPage) /\
  (Index.render st = Index.Dashboard
   \/ Index.render st = Index.ScientistDashboard ->
   Index.render st' = Index.AuthPage) /\
  (forall s : Session,
     Index.render (Index.onAuthSuccess (Some s) st') = Index.ConsentPage) /\
  (forall s : Session,
     Index.render (Index.onAuthStateChange Index.SIGNED_IN (Some s) st')
       = (if Index.isLoading st then Index.Spinner else Index.ConsentPage)).
Proof.
  destruct st as [u c v l]; simpl.
  unfold Index.onAuthStateChange, Index.render; simpl.
  repeat split; destruct l; try reflexivity.
  intros [H | H]; discriminate H.
Qed.

(** ** Strings *)

Lemma append_nil (t : string) : "" +:+ t = t.
Proof. reflexivity. Qed.

Lemma append_cons (c : ascii) (s t : string) :
  String c s +:+ t = String c (s +:+ t).
Proof. reflexivity. Qed.








Lemma filter_filter {A} (p q : A -> bool) (l : list A) :
  List.filter q (List.filter p l) = List.filter (fun x => p x && q x) l.
Proof.
  induction l as [| x l IH]; simpl; [reflexivity |].
  destruct (p x); simpl; [destruct (q x) |]; now rewrite IH.
Qed.

Lemma filter_all {A} (l : list A) : List.filter (fun _ => true) l = l.
Proof. induction l as [| x l IH]; simpl; [reflexivity | now rewrite IH]. Qed.

Lemma filtered_keeps (lower : string -> string)
    (trips : list ScientistDashboard.Trip) (searchTerm modeFilter : string) :
  ScientistDashboard.filtered lower trips searchTerm modeFilter
  = List.filter (Measures.keeps lower searchTerm modeFilter) trips.
Proof.
  unfold ScientistDashboard.filtered, Measures.keeps.
  destruct (truthy searchTerm), (bool_decide (modeFilter = "all")); simpl.
  - rewrite <- (filter_all (List.filter _ trips)), filter_filter.
    apply List.filter_ext. intros x. now rewrite andb_true_r.
  - now rewrite filter_filter.
  - now rewrite filter_all.
  - reflexivity.
Qed.

(** ** The research view's filter *)



(** ** Persisted trips *)

Lemma mode_values_lowered :
  map toLowerCase TripForm.transportModes = mode_values.
Proof. reflexivity. Qed.

Lemma form_invariant_fresh : form_invariant TripForm.fresh.
Proof. split; [left; reflexivity | constructor]. Qed.

Lemma possible_selected (item : string) :
  TripForm.possible (TripForm.selected item) = true ->
  toLowerCase item ∈ mode_values.
Proof.
  simpl. intros H. apply bool_decide_eq_true in H.
  rewrite <- mode_values_lowered. now apply (list_elem_of_fmap_2 toLowerCase).
Qed.

Lemma handleSubmit_invariant
    (getUser : reply (option User)) (inserted : reply (option PostgrestError))
    (w : World TripForm.State) :
  form_invariant w ->
  form_invariant (exec (TripForm.handleSubmit getUser inserted) w).
Proof.
  destruct w as [[[tn o d m st en co] busy] es [ps ts]].
  unfold form_invariant; simpl. intros [Hmode Hrows].
  unfold exec, TripForm.handleSubmit, TripForm.insert, bind, get,
    try_catch_finally; simpl.
  destruct o as [| oc o]; simpl; [auto |].
  destruct d as [| dc d]; simpl; [auto |].
  destruct m as [| mc m]; simpl; [auto |].
  destruct Hmode as [Hmode | Hmode]; [discriminate |].
  destruct getUser as [[u |] | x]; simpl; [| auto | auto].
  destruct inserted as [[e |] | x]; simpl; [auto | | auto].
  split; [left; reflexivity |].
  apply Forall_app. split; [exact Hrows |].
  constructor; [| constructor].
  unfold well_formed_row; simpl. repeat split; [discriminate .. | exact Hmode].
Qed.

Lemma handle_invariant (ev : TripForm.Event) (w : World TripForm.State) :
  TripForm.possible ev = true ->
  form_invariant w ->
  form_invariant (exec (TripForm.handle ev) w).
Proof.
  intros Hev Hinv. destruct ev as [coords | now | field value | item | g i].
  - destruct w as [[t busy] es tables], Hinv as [Hm Hr]. split; assumption.
  - destruct w as [[t busy] es tables], Hinv as [Hm Hr]. split; assumption.
  - destruct w as [[t busy] es tables], Hinv as [Hm Hr].
    destruct field; try discriminate Hev; split; assumption.
  - destruct w as [[t busy] es tables], Hinv as [Hm Hr].
    split; [right; apply possible_selected, Hev | assumption].
  - now apply handleSubmit_invariant.
Qed.

Lemma run_invariant (evs : list TripForm.Event) (w : World TripForm.State) :
  forallb TripForm.possible evs = true ->
  form_invariant w ->
  form_invariant (TripForm.run evs w).
Proof.
  revert w; induction evs as [| ev evs IH]; intros w Hevs Hinv; simpl.
  - exact Hinv.
  - simpl in Hevs. apply andb_true_iff in Hevs as [Hev Hevs].
    apply IH; [exact Hevs |]. now apply handle_invariant.
Qed.

(** C8 (as amended): whatever is done with a freshly mounted form (the
    mount effect's fills, edits of the text inputs, choices in the mode
    [Select], submissions with any answers of the backend), every row the
    submission flow has put in the [trips] table has a non-empty origin, a
    non-empty destination, and a mode among walking, bicycle, motorcycle,
    car, bus, train, metro, auto rickshaw, taxi, other. *)
Theorem C8_persisted_trips_well_formed (evs : list TripForm.Event) :
  forallb TripForm.possible evs = true ->
  forall row : trips_row,
    row ∈ trips (db (TripForm.run evs TripForm.fresh)) ->
    origin row <> "" /\ destination row <> "" /\
    mode row ∈ ["walking"; "bicycle"; "motorcycle"; "car"; "bus"; "train";
                "metro"; "auto rickshaw"; "taxi"; "other"].
Proof.
  intros Hevs row Hrow.
  destruct (run_invariant evs TripForm.fresh Hevs form_invariant_fresh)
    as [_ Hrows].
  rewrite Forall_forall in Hrows. exact (Hrows row Hrow).
Qed.

Lemma C8_persisted_trips_well_formed_witness :
  let row := mkTripsRow (id Samples.alice) None "Pattom" "Kowdiar"
                        "auto rickshaw" (Some "2025-01-05T09:30") None None in
  forallb TripForm.possible Samples.rickshaw_ride = true /\
  row ∈ trips (db (TripForm.run Samples.rickshaw_ride TripForm.fresh)) /\
  origin row <> "" /\ destination row <> "" /\
  mode row ∈ ["walking"; "bicycle"; "motorcycle"; "car"; "bus"; "train";
              "metro"; "auto rickshaw"; "taxi"; "other"].
Proof.
  assert (Hevs : forallb TripForm.possible Samples.rickshaw_ride = true)
    by reflexivity.
  assert (Hrow : mkTripsRow (id Samples.alice) None "Pattom" "Kowdiar"
                   "auto rickshaw" (Some "2025-01-05T09:30") None None
                 ∈ trips (db (TripForm.run Samples.rickshaw_ride TripForm.fresh)))
    by (apply list_elem_of_singleton; reflexivity).
  split; [exact Hevs |].
  split; [exact Hrow |].
  exact (C8_persisted_trips_well_formed Samples.rickshaw_ride Hevs _ Hrow).
Defined.

(** C8 as stated fails on the mode set: choosing "Auto Rickshaw" persists
    the mode "auto rickshaw", which is not in the enumerated set of the
    data model (that one has "auto-rickshaw"). *)
Lemma C8_rickshaw_outside_enumeration :
  forallb TripForm.possible Samples.rickshaw_ride = true /\
  exists row : trips_row,
    row ∈ trips (db (TripForm.run Samples.rickshaw_ride TripForm.fresh)) /\
    mode row = "auto rickshaw" /\
    ~ mode row ∈ Spec.modes.
Proof.
  split; [reflexivity |].
  exists (mkTripsRow (id Samples.alice) None "Pattom" "Kowdiar"
                     "auto rickshaw" (Some "2025-01-05T09:30") None None).
  split; [apply list_elem_of_singleton; reflexivity |].
  split; [reflexivity |].
  simpl. intros H. apply list_elem_of_In in H. simpl in H.
  repeat (destruct H as [H | H]; [discriminate H |]). exact H.
Qed.

(** ** Splitting and joining *)

Lemma occurs_append (c : ascii) (a b : string) :
  Csv.occurs c (a +:+ b) = Csv.occurs c a || Csv.occurs c b.
Proof.
  induction a as [| x a IH]; [reflexivity |].
  rewrite append_cons; simpl. now rewrite IH, orb_assoc.
Qed.

Lemma split_free (sep : ascii) (s : string) :
  Csv.occurs sep s = false -> Csv.split sep s = [s].
Proof.
  induction s as [| c s IH]; simpl; [reflexivity |].
  intros H. apply orb_false_iff in H as [Hc Hs].
  apply bool_decide_eq_false in Hc.
  destruct (decide (c = sep)); [contradiction |].
  now rewrite (IH Hs).
Qed.

Lemma split_append (sep : ascii) (a b : string) :
  Csv.occurs sep a = false ->
  Csv.split sep (a +:+ String sep b) = a :: Csv.split sep b.
Proof.
  induction a as [| c a IH]; intros H.
  - rewrite append_nil; simpl.
    destruct (decide (sep = sep)); [reflexivity | contradiction].
  - simpl in H. apply orb_false_iff in H as [Hc Ha].
    apply bool_decide_eq_false in Hc.
    rewrite append_cons; simpl.
    destruct (decide (c = sep)); [contradiction |].
    now rewrite (IH Ha).
Qed.

Lemma split_join (sep : ascii) (xs : list string) :
  xs <> [] ->
  Forall (fun x => Csv.occurs sep x = false) xs ->
  Csv.split sep (join (String sep "") xs) = xs.
Proof.
  induction xs as [| x xs IH]; intros Hne Hfree; [contradiction |].
  apply Forall_cons in Hfree as [Hx Hxs].
  destruct xs as [| y xs].
  - simpl. now apply split_free.
  - change (join (String sep "") (x :: y :: xs))
      with (x +:+ String sep "" +:+ join (String sep "") (y :: xs)).
    rewrite append_cons, append_nil, split_append by exact Hx.
    rewrite IH; [reflexivity | discriminate | exact Hxs].
Qed.

Lemma occurs_join (c : ascii) (sep : string) (xs : list string) :
  Csv.occurs c sep = false ->
  Forall (fun x => Csv.occurs c x = false) xs ->
  Csv.occurs c (join sep xs) = false.
Proof.
  intros Hsep. induction xs as [| x xs IH]; intros Hfree; [reflexivity |].
  apply Forall_cons in Hfree as [Hx Hxs].
  destruct xs as [| y xs]; [exact Hx |].
  change (join sep (x :: y :: xs)) with (x +:+ sep +:+ join sep (y :: xs)).
  now rewrite !occurs_append, Hx, Hsep, (IH Hxs).
Qed.

(** The decimal rendering of a number has digits and a sign only. *)
Lemma occurs_digits (c : ascii) (d : Decimal.uint) :
  c = comma \/ c = newline ->
  Csv.occurs c (NilEmpty.string_of_uint d) = false.
Proof.
  intros [-> | ->]; induction d; simpl; auto.
Qed.

Lemma occurs_Number_toString (c : ascii) (n : Z) :
  c = comma \/ c = newline ->
  Csv.occurs c (Number_toString n) = false.
Proof.
  intros Hc. unfold Number_toString.
  destruct (Z.to_int n) as [d | d]; simpl.
  - destruct d; try exact (occurs_digits c _ Hc).
    destruct Hc as [-> | ->]; reflexivity.
  - replace (Csv.occurs c (NilZero.string_of_uint d)) with false.
    + destruct Hc as [-> | ->]; reflexivity.
    + symmetry. destruct d; try exact (occurs_digits c _ Hc).
      destruct Hc as [-> | ->]; reflexivity.
Qed.

Lemma cells_texts (trip : ScientistDashboard.Trip) :
  ScientistDashboard.cells trip
  = Number_toString (ScientistDashboard.id trip) :: Csv.texts trip.
Proof. reflexivity. Qed.

Lemma cells_free (c : ascii) (trips : list ScientistDashboard.Trip) :
  c = comma \/ c = newline ->
  Csv.free_of c trips = true ->
  Forall (Forall (fun cell => Csv.occurs c cell = false))
         (ScientistDashboard.header :: map ScientistDashboard.cells trips).
Proof.
  intros Hc Hfree. constructor.
  - destruct Hc as [-> | ->]; repeat constructor.
  - apply Forall_forall. intros row Hrow.
    apply list_elem_of_fmap in Hrow as (trip & -> & Htrip).
    rewrite cells_texts. constructor.
    + now apply occurs_Number_toString.
    + unfold Csv.free_of in Hfree. rewrite forallb_forall in Hfree.
      apply list_elem_of_In in Htrip. specialize (Hfree trip Htrip).
      rewrite forallb_forall in Hfree.
      apply Forall_forall. intros cell Hcell.
      apply list_elem_of_In in Hcell.
      apply negb_true_iff. exact (Hfree cell Hcell).
Qed.

(** Rows without line feeds come back as the lines of the text. *)
Lemma lines_csvContent (trips : list ScientistDashboard.Trip) :
  Csv.free_of newline trips = true ->
  Csv.lines (ScientistDashboard.csvContent trips)
  = map (join ",") (ScientistDashboard.header :: map ScientistDashboard.cells trips).
Proof.
  intros Hfree. unfold Csv.lines, ScientistDashboard.csvContent.
  apply split_join; [discriminate |].
  apply Forall_fmap, Forall_forall. intros row Hrow. simpl.
  apply occurs_join; [reflexivity |].
  pose proof (cells_free newline trips (or_intror eq_refl) Hfree) as Hall.
  rewrite Forall_forall in Hall. exact (Hall row Hrow).
Qed.

Lemma split_join_rows (sep : ascii) (rows : list (list string)) :
  Forall (fun row => row <> []) rows ->
  Forall (Forall (fun cell => Csv.occurs sep cell = false)) rows ->
  map (Csv.split sep) (map (join (String sep "")) rows) = rows.
Proof.
  induction rows as [| row rows IH]; intros Hne Hfree; [reflexivity |].
  apply Forall_cons in Hne as [Hrow Hne].
  apply Forall_cons in Hfree as [Hcells Hfree].
  simpl. now rewrite (split_join sep row Hrow Hcells), (IH Hne Hfree).
Qed.

(** ** CSV export *)

(** C4 (as amended): the export hands the browser the file
    natpac_trip_data.csv whose text is the nine-name header line followed
    by one line per filtered trip, cells joined by commas and lines by line
    feeds.  When no text field of the filtered trips contains a line feed,
    reading the text back line by line gives the header line first and
    then exactly as many data rows as there were filtered trips; when in
    addition no text field contains a comma, every row read back has its
    nine cells in the header's order, equal to the trip's cells. *)
Theorem C4_export_round_trip (w : World ScientistDashboard.State) :
  let shown := ScientistDashboard.filteredTrips (local w) in
  let text := ScientistDashboard.csvContent shown in
  Csv.free_of newline shown = true ->
  effects (exec ScientistDashboard.exportData w)
    = effects w ++ [downloaded "natpac_trip_data.csv" "text/csv" text] /\
  Csv.header_row text
    = Some ["Trip ID"; "User ID"; "Trip Number"; "Origin"; "Destination";
            "Mode"; "Start Time"; "End Time"; "Companions"] /\
  length (Csv.data_rows text) = length shown /\
  (Csv.free_of comma shown = true ->
   Csv.data_rows text = map ScientistDashboard.cells shown /\
   Forall (fun row => length row = 9) (Csv.data_rows text)).
Proof.
  intros shown text Hlf.
  split; [reflexivity |].
  unfold Csv.header_row, Csv.data_rows, Csv.read, text.
  rewrite (lines_csvContent shown Hlf); simpl.
  split; [reflexivity |].
  split; [now rewrite !length_map |].
  intros Hcomma.
  assert (Hrows : map (Csv.split comma)
                      (map (join ",") (map ScientistDashboard.cells shown))
                  = map ScientistDashboard.cells shown).
  { pose proof (cells_free comma shown (or_introl eq_refl) Hcomma) as Hall.
    apply Forall_cons in Hall as [_ Hall].
    apply split_join_rows; [| exact Hall].
    apply Forall_fmap, Forall_forall. intros trip _. discriminate. }
  rewrite Hrows. split; [reflexivity |].
  apply Forall_fmap, Forall_forall. intros trip _. reflexivity.
Qed.

Lemma C4_export_round_trip_witness :
  let w := Samples.research_view [Samples.bus_trip; Samples.station_trip] in
  let shown := ScientistDashboard.filteredTrips (local w) in
  let text := ScientistDashboard.csvContent shown in
  Csv.free_of newline shown = true /\
  effects (exec ScientistDashboard.exportData w)
    = effects w ++ [downloaded "natpac_trip_data.csv" "text/csv" text] /\
  Csv.header_row text
    = Some ["Trip ID"; "User ID"; "Trip Number"; "Origin"; "Destination";
            "Mode"; "Start Time"; "End Time"; "Companions"] /\
  length (Csv.data_rows text) = 2.
Proof.
  assert (Hlf : Csv.free_of newline
                  (ScientistDashboard.filteredTrips
                     (local (Samples.research_view
                               [Samples.bus_trip; Samples.station_trip])))
                = true) by reflexivity.
  destruct (C4_export_round_trip
              (Samples.research_view [Samples.bus_trip; Samples.station_trip])
              Hlf) as (H1 & H2 & H3 & _).
  split; [exact Hlf |].
  split; [exact H1 |].
  split; [exact H2 | exact H3].
Defined.

(** C4 as stated fails on a trip whose companions text has a line feed:
    the one trip comes back as two data rows. *)
Lemma C4_line_feed_splits_row :
  let shown := [Samples.family_trip] in
  let text := ScientistDashboard.csvContent shown in
  length shown = 1 /\
  Csv.data_rows text
    = [["17"; "7f3c"; "T003"; "Pattom"; "Kowdiar"; "car"; "2025-01-05T09:30";
        ""; "wife"];
       ["two children"]] /\
  length (Csv.data_rows text) <> length shown.
Proof.
  split; [reflexivity |].
  split; [vm_compute; reflexivity |].
  vm_compute. discriminate.
Qed.

(** A comma inside a field leaves the number of rows right and shifts the
    columns: the row read back has ten cells. *)
Lemma comma_shifts_columns :
  Csv.data_rows (ScientistDashboard.csvContent [Samples.station_trip])
  = [["19"; "7f3c"; ""; "Thampanoor"; " Central Station"; "Museum"; "bus";
      ""; ""; ""]].
Proof. vm_compute. reflexivity. Qed.

(** ** Statistics of the research view *)

Section Counts.
Import ScientistDashboard Tally.

Lemma read_write_eq (acc : Counts) (k : string) (v : nat) :
  read (write acc k v) k = Some v.
Proof.
  induction acc as [| [k' v'] acc IH]; simpl.
  - destruct (decide (k = k)); [reflexivity | contradiction].
  - destruct (decide (k' = k)) as [-> | Hne]; simpl.
    + destruct (decide (k = k)); [reflexivity | contradiction].
    + destruct (decide (k' = k)); [contradiction | exact IH].
Qed.

Lemma read_write_ne (acc : Counts) (k k' : string) (v : nat) :
  k <> k' -> read (write acc k v) k' = read acc k'.
Proof.
  intros Hne. induction acc as [| [k0 v0] acc IH]; simpl.
  - destruct (decide (k = k')); [contradiction | reflexivity].
  - destruct (decide (k0 = k)) as [-> | Hk0]; simpl.
    + destruct (decide (k = k')); [contradiction | reflexivity].
    + destruct (decide (k0 = k')); [reflexivity | exact IH].
Qed.

Lemma write_keys (acc : Counts) (k : string) (v : nat) :
  NoDup (map fst acc) -> NoDup (map fst (write acc k v)) /\
  forall k', k' ∈ map fst (write acc k v) <-> k' = k \/ k' ∈ map fst acc.
Proof.
  induction acc as [| [k0 v0] acc IH]; simpl; intros Hnd.
  - split; [apply NoDup_singleton |].
    intros k'. rewrite list_elem_of_singleton, elem_of_nil. tauto.
  - apply NoDup_cons in Hnd as [Hk0 Hnd].
    destruct (IH Hnd) as [IHnd IHin].
    destruct (decide (k0 = k)) as [-> | Hne]; simpl.
    + split; [now apply NoDup_cons |].
      intros k'. rewrite elem_of_cons. tauto.
    + split.
      * apply NoDup_cons. split; [| exact IHnd].
        rewrite IHin. intros [-> | H]; [now apply Hne | now apply Hk0].
      * intros k'. rewrite !elem_of_cons, IHin. tauto.
Qed.

Lemma read_elem (acc : Counts) (k : string) (v : nat) :
  read acc k = Some v -> (k, v) ∈ acc.
Proof.
  induction acc as [| [k0 v0] acc IH]; simpl; [discriminate |].
  destruct (decide (k0 = k)) as [-> | Hne].
  - intros [= ->]. left.
  - intros H. right. exact (IH H).
Qed.

Lemma elem_read (acc : Counts) (k : string) (v : nat) :
  NoDup (map fst acc) -> (k, v) ∈ acc -> read acc k = Some v.
Proof.
  induction acc as [| [k0 v0] acc IH]; simpl; intros Hnd Hin.
  - now apply elem_of_nil in Hin.
  - apply NoDup_cons in Hnd as [Hk0 Hnd].
    apply elem_of_cons in Hin as [[= <- <-] | Hin].
    + destruct (decide (k = k)); [reflexivity | contradiction].
    + destruct (decide (k0 = k)) as [-> | Hne]; [| exact (IH Hnd Hin)].
      exfalso. apply Hk0. apply (list_elem_of_fmap_2 fst) in Hin. exact Hin.
Qed.

Lemma read_tally (trips : list Trip) (acc : Counts) (m : string) :
  read (fold_left tally trips acc) m
  = match Spec.trips_with_mode m trips with
    | 0 => read acc m
    | S k => Some (default 0 (read acc m) + S k)
    end.
Proof.
  revert acc; induction trips as [| trip trips IH]; intros acc.
  - reflexivity.
  - simpl fold_left. rewrite IH. unfold Spec.trips_with_mode, tally; simpl.
    destruct (bool_decide_reflect (mode trip = m)) as [-> | Hne]; simpl.
    + rewrite read_write_eq; simpl.
      destruct (length _); f_equal; lia.
    + now rewrite read_write_ne by exact Hne.
Qed.

Lemma tally_keys (trips : list Trip) (acc : Counts) :
  NoDup (map fst acc) -> NoDup (map fst (fold_left tally trips acc)).
Proof.
  revert acc; induction trips as [| trip trips IH]; intros acc Hnd; simpl.
  - exact Hnd.
  - apply IH. unfold tally. now apply write_keys.
Qed.

(** The accumulator holds, for each mode that occurs, the number of trips
    with that mode, and nothing else. *)
Lemma modeCounts_spec (trips : list Trip) (m : string) (n : nat) :
  (m, n) ∈ modeCounts trips <-> n = Spec.trips_with_mode m trips /\ 0 < n.
Proof.
  assert (Hread : read (modeCounts trips) m
                  = match Spec.trips_with_mode m trips with
                    | 0 => None
                    | S k => Some (S k)
                    end).
  { unfold modeCounts. rewrite read_tally. reflexivity. }
  split.
  - intros Hin. apply elem_read in Hin.
    + rewrite Hread in Hin. destruct (Spec.trips_with_mode m trips);
        [discriminate |]. injection Hin as <-. split; [reflexivity | lia].
    + apply (tally_keys trips []). constructor.
  - intros [-> Hpos]. apply read_elem. rewrite Hread.
    destruct (Spec.trips_with_mode m trips); [lia | reflexivity].
Qed.

Lemma insert_desc_perm (x : string * nat) (l : Counts) :
  insert_desc x l ≡ₚ x :: l.
Proof.
  induction l as [| y l IH]; simpl; [reflexivity |].
  destruct (snd x <? snd y); [| reflexivity].
  rewrite IH. apply Permutation_swap.
Qed.

Lemma sort_desc_perm (l : Counts) : sort_desc l ≡ₚ l.
Proof.
  induction l as [| x l IH]; simpl; [reflexivity |].
  now rewrite insert_desc_perm, IH.
Qed.

Lemma insert_desc_sorted (x : string * nat) (l : Counts) :
  StronglySorted descending l -> StronglySorted descending (insert_desc x l).
Proof.
  induction l as [| y l IH]; simpl; intros Hs.
  - repeat constructor.
  - apply StronglySorted_cons in Hs as [Hy Hl].
    destruct (Nat.ltb_spec (snd x) (snd y)) as [Hlt | Hge].
    + apply StronglySorted_cons. split; [| exact (IH Hl)].
      rewrite insert_desc_perm. constructor; [unfold descending; lia | exact Hy].
    + apply StronglySorted_cons. split.
      * constructor; [exact Hge |].
        eapply Forall_impl; [exact Hy |]. unfold descending. intros z Hz. lia.
      * apply StronglySorted_cons. split; assumption.
Qed.

Lemma sort_desc_sorted (l : Counts) : StronglySorted descending (sort_desc l).
Proof.
  induction l as [| x l IH]; simpl; [constructor |].
  now apply insert_desc_sorted.
Qed.

(** The first entry after sorting is an entry with a largest count. *)
Lemma head_sort_desc (l : Counts) (top : string * nat) :
  head (sort_desc l) = Some top ->
  top ∈ l /\ forall entry, entry ∈ l -> snd entry <= snd top.
Proof.
  intros Hhead.
  pose proof (sort_desc_sorted l) as Hs.
  pose proof (sort_desc_perm l) as Hp.
  destruct (sort_desc l) as [| x rest]; [discriminate |].
  injection Hhead as ->.
  apply StronglySorted_cons in Hs as [Hrest _].
  split.
  - rewrite <- Hp. left.
  - intros entry Hentry. rewrite <- Hp in Hentry.
    apply elem_of_cons in Hentry as [-> | Hentry]; [lia |].
    rewrite Forall_forall in Hrest. exact (Hrest entry Hentry).
Qed.

End Counts.

(** *** The accumulator object against the plain map *)

Lemma own_property_as_number (acc : Tally.Counts) (key : string) :
  ScientistDashboard.own_property (map Tally.as_number acc) key
  = ScientistDashboard.number <$> Tally.read acc key.
Proof.
  induction acc as [| [k v] acc IH]; simpl; [reflexivity |].
  destruct (decide (k = key)); [reflexivity | exact IH].
Qed.

Lemma set_own_as_number (acc : Tally.Counts) (key : string) (n : nat) :
  ScientistDashboard.set_own (map Tally.as_number acc) key
                             (ScientistDashboard.number n)
  = map Tally.as_number (Tally.write acc key n).
Proof.
  induction acc as [| [k v] acc IH]; simpl; [reflexivity |].
  destruct (decide (k = key)); simpl; [reflexivity | now rewrite IH].
Qed.

Lemma ordinary_spec (key : string) :
  Tally.ordinary key = true ->
  bool_decide (key = "__proto__") = false /\
  bool_decide (key ∈ ScientistDashboard.inherited_functions) = false.
Proof.
  unfold Tally.ordinary. rewrite andb_true_iff, !negb_true_iff. tauto.
Qed.

(** For an ordinary mode name one step of the tally on the accumulator
    object is one step of the tally on the plain map. *)
Lemma tally_as_number (acc : Tally.Counts) (trip : ScientistDashboard.Trip) :
  Tally.ordinary (ScientistDashboard.mode trip) = true ->
  ScientistDashboard.tally (map Tally.as_number acc) trip
  = map Tally.as_number (Tally.tally acc trip).
Proof.
  intros Hord. apply ordinary_spec in Hord as [Hproto Hfun].
  unfold ScientistDashboard.tally, ScientistDashboard.write,
    ScientistDashboard.read, Tally.tally.
  rewrite Hproto, own_property_as_number.
  destruct (Tally.read acc (ScientistDashboard.mode trip)) as [n |]; simpl.
  - apply set_own_as_number.
  - rewrite Hfun. simpl. apply set_own_as_number.
Qed.

Lemma modeCounts_as_number (shown : list ScientistDashboard.Trip) :
  Forall (fun trip => Tally.ordinary (ScientistDashboard.mode trip) = true)
         shown ->
  ScientistDashboard.modeCounts shown
  = map Tally.as_number (Tally.modeCounts shown).
Proof.
  unfold ScientistDashboard.modeCounts, Tally.modeCounts.
  change (@nil (string * ScientistDashboard.Value))
    with (map Tally.as_number []).
  generalize (@nil (string * nat)) as acc.
  induction shown as [| trip rest IH]; intros acc Hord; [reflexivity |].
  apply Forall_cons in Hord as [Htrip Hrest]. simpl.
  rewrite (tally_as_number acc trip Htrip). now apply IH.
Qed.

Lemma sort_as_number (l : Tally.Counts) :
  ScientistDashboard.sort (map Tally.as_number l)
  = map Tally.as_number (Tally.sort_desc l).
Proof.
  induction l as [| x l IH]; simpl; [reflexivity |]. rewrite IH.
  generalize (Tally.sort_desc l) as sorted. clear IH.
  induction sorted as [| y sorted IH]; simpl; [reflexivity |].
  assert (Hcmp : (0 <? Z.of_nat (snd y) - Z.of_nat (snd x))%Z
                 = (snd x <? snd y)).
  { destruct (Nat.ltb_spec (snd x) (snd y));
      [apply Z.ltb_lt | apply Z.ltb_ge]; lia. }
  rewrite Hcmp. destruct (snd x <? snd y); simpl; [now rewrite IH | reflexivity].
Qed.

Lemma insert_by_index_map {V W} (h : string * V -> string * W)
    (x : N * (string * V)) (l : list (N * (string * V))) :
  ScientistDashboard.insert_by_index (fst x, h (snd x))
    (map (fun y => (fst y, h (snd y))) l)
  = map (fun y => (fst y, h (snd y))) (ScientistDashboard.insert_by_index x l).
Proof.
  induction l as [| y l IH]; simpl; [reflexivity |].
  destruct (fst x <? fst y)%N; simpl; [reflexivity | now rewrite IH].
Qed.

(** [Object.entries] orders by the keys alone. *)
Lemma entries_as_number (l : Tally.Counts) :
  ScientistDashboard.entries (map Tally.as_number l)
  = map Tally.as_number (ScientistDashboard.entries l).
Proof.
  unfold ScientistDashboard.entries. rewrite map_app. f_equal.
  - assert (Hidx : ScientistDashboard.indexed (map Tally.as_number l)
                   = map (fun y => (fst y, Tally.as_number (snd y)))
                         (ScientistDashboard.indexed l)).
    { unfold ScientistDashboard.indexed, Tally.as_number.
      induction l as [| [k v] l IH]; simpl; [reflexivity |].
      destruct (ScientistDashboard.array_index k); simpl;
        [f_equal |]; exact IH. }
    rewrite Hidx.
    generalize (ScientistDashboard.indexed l) as xs.
    induction xs as [| x xs IH]; simpl; [reflexivity |].
    assert (Hfold : foldr ScientistDashboard.insert_by_index []
                      (map (fun y => (fst y, Tally.as_number (snd y))) xs)
                    = map (fun y => (fst y, Tally.as_number (snd y)))
                          (foldr ScientistDashboard.insert_by_index [] xs)).
    { clear IH. induction xs as [| z xs IHxs]; simpl; [reflexivity |].
      rewrite IHxs. apply (insert_by_index_map Tally.as_number). }
    rewrite Hfold, (insert_by_index_map Tally.as_number), !List.map_map.
    reflexivity.
  - unfold Tally.as_number.
    induction l as [| [k v] l IH]; simpl; [reflexivity |].
    destruct (ScientistDashboard.array_index k); simpl; now rewrite IH.
Qed.

Lemma insert_by_index_perm {V} (x : N * (string * V))
    (l : list (N * (string * V))) :
  ScientistDashboard.insert_by_index x l ≡ₚ x :: l.
Proof.
  induction l as [| y l IH]; simpl; [reflexivity |].
  destruct (fst x <? fst y)%N; [reflexivity |].
  rewrite IH. apply Permutation_swap.
Qed.

(** [Object.entries] lists every own property once. *)
Lemma entries_perm {V} (l : list (string * V)) :
  ScientistDashboard.entries l ≡ₚ l.
Proof.
  unfold ScientistDashboard.entries, ScientistDashboard.indexed.
  induction l as [| [k v] l IH]; simpl; [reflexivity |].
  destruct (ScientistDashboard.array_index k) as [i |]; simpl.
  - rewrite insert_by_index_perm. simpl. apply perm_skip. exact IH.
  - etransitivity; [symmetry; apply Permutation_middle |].
    apply perm_skip. exact IH.
Qed.

(** Without array-index keys [Object.entries] is the creation order. *)
Lemma entries_plain {V} (l : list (string * V)) :
  Forall (fun e => ScientistDashboard.array_index (fst e) = None) l ->
  ScientistDashboard.entries l = l.
Proof.
  intros Hl. unfold ScientistDashboard.entries.
  assert (Hnone : ScientistDashboard.indexed l = []).
  { unfold ScientistDashboard.indexed.
    induction Hl as [| [k v] l He Hl IH]; [reflexivity |].
    simpl. simpl in He. rewrite He. exact IH. }
  assert (Hall : List.filter
                   (fun e : string * V =>
                      match ScientistDashboard.array_index (fst e) with
                      | Some _ => false
                      | None => true
                      end) l = l).
  { clear Hnone. induction Hl as [| [k v] l He Hl IH]; [reflexivity |].
    simpl. simpl in He. rewrite He. f_equal. exact IH. }
  rewrite Hnone, Hall. reflexivity.
Qed.

(** The entry [getStats] reads the most-used mode off, for ordinary mode
    names: the first of the plain map's entries, listed as [Object.entries]
    lists them and sorted by falling count. *)
Lemma top_entry_as_number (shown : list ScientistDashboard.Trip) :
  Forall (fun trip => Tally.ordinary (ScientistDashboard.mode trip) = true)
         shown ->
  head (ScientistDashboard.sort
          (ScientistDashboard.entries (ScientistDashboard.modeCounts shown)))
  = Tally.as_number
      <$> head (Tally.sort_desc
                  (ScientistDashboard.entries (Tally.modeCounts shown))).
Proof.
  intros Hord.
  rewrite (modeCounts_as_number shown Hord), entries_as_number, sort_as_number.
  now destruct (Tally.sort_desc _).
Qed.

Lemma trips_with_mode_positive
    (m : string) (shown : list ScientistDashboard.Trip) :
  0 < Spec.trips_with_mode m shown <-> m ∈ map ScientistDashboard.mode shown.
Proof.
  unfold Spec.trips_with_mode. split.
  - intros Hpos.
    destruct (List.filter _ shown) as [| trip rest] eqn:Hf;
      [simpl in Hpos; lia |].
    assert (Htrip : In trip (List.filter
              (fun trip => bool_decide (ScientistDashboard.mode trip = m))
              shown)) by (rewrite Hf; left; reflexivity).
    apply List.filter_In in Htrip as [Htrip Hmode].
    apply bool_decide_eq_true in Hmode. subst m.
    apply list_elem_of_In, List.in_map, Htrip.
  - intros Hm. apply list_elem_of_fmap in Hm as (trip & -> & Hin).
    apply list_elem_of_In in Hin.
    assert (Hf : In trip (List.filter
              (fun t => bool_decide (ScientistDashboard.mode t
                                     = ScientistDashboard.mode trip)) shown)).
    { apply List.filter_In. split; [exact Hin |].
      now apply bool_decide_eq_true_2. }
    destruct (List.filter _ shown); [contradiction | simpl; lia].
Qed.

(** C10 (as amended): [getStats] returns for every filtered list.  On the
    empty list the total is 0, the number of distinct users is 0 and the
    most-used mode reads "N/A" (no entry is read off the empty sorted
    list).  On a non-empty list in which no trip's mode is [__proto__] or
    the name of a function that objects inherit (constructor, toString,
    toLocaleString, valueOf, hasOwnProperty, isPrototypeOf,
    propertyIsEnumerable, __defineGetter__, __defineSetter__,
    __lookupGetter__, __lookupSetter__), the total is the length of the
    list and the most-used mode reads "m (n trips)" for a mode m of some
    trip of the list, n being the number of trips with mode m, and no mode
    has more trips than n. *)
Theorem C10_getStats_total :
  ScientistDashboard.getStats []
    = ScientistDashboard.mkStats 0 0 "N/A" /\
  forall shown : list ScientistDashboard.Trip,
    shown <> [] ->
    Forall (fun trip => Tally.ordinary (ScientistDashboard.mode trip) = true)
           shown ->
    ScientistDashboard.totalTrips (ScientistDashboard.getStats shown)
      = length shown /\
    exists (m : string) (n : nat),
      ScientistDashboard.topMode (ScientistDashboard.getStats shown)
        = m +:+ " (" +:+ Number_toString (Z.of_nat n) +:+ " trips)" /\
      m ∈ map ScientistDashboard.mode shown /\
      n = Spec.trips_with_mode m shown /\
      forall m' : string, Spec.trips_with_mode m' shown <= n.
Proof.
  split; [reflexivity |].
  intros shown Hne Hord. split; [reflexivity |].
  unfold ScientistDashboard.getStats; simpl.
  rewrite (top_entry_as_number shown Hord).
  destruct (head (Tally.sort_desc
                    (ScientistDashboard.entries (Tally.modeCounts shown))))
    as [[m n] |] eqn:Hhead; simpl.
  - apply head_sort_desc in Hhead as [Hin Hmax].
    rewrite entries_perm in Hin.
    apply modeCounts_spec in Hin as [Hn Hpos].
    exists m, n. split; [reflexivity |].
    split; [| split; [exact Hn |]].
    + apply trips_with_mode_positive. lia.
    + intros m'.
      destruct (Spec.trips_with_mode m' shown) as [| k] eqn:Hk; [lia |].
      assert (Hin' : (m', S k) ∈ Tally.modeCounts shown).
      { apply modeCounts_spec. rewrite Hk. split; [reflexivity | lia]. }
      rewrite <- (entries_perm (Tally.modeCounts shown)) in Hin'.
      exact (Hmax _ Hin').
  - exfalso.
    destruct shown as [| trip rest]; [contradiction |].
    assert (Hin : (ScientistDashboard.mode trip,
                   Spec.trips_with_mode (ScientistDashboard.mode trip)
                                        (trip :: rest))
                  ∈ Tally.modeCounts (trip :: rest)).
    { apply modeCounts_spec. split; [reflexivity |].
      apply trips_with_mode_positive. left. }
    rewrite <- (entries_perm (Tally.modeCounts (trip :: rest))) in Hin.
    rewrite <- (sort_desc_perm
                  (ScientistDashboard.entries (Tally.modeCounts (trip :: rest))))
      in Hin.
    destruct (Tally.sort_desc _); [| discriminate].
    now apply elem_of_nil in Hin.
Qed.

Lemma C10_getStats_total_witness :
  let shown := [Samples.bus_trip; Samples.family_trip; Samples.station_trip] in
  shown <> [] /\
  Forall (fun trip => Tally.ordinary (ScientistDashboard.mode trip) = true)
         shown /\
  ScientistDashboard.getStats shown
    = ScientistDashboard.mkStats 3 1 "bus (2 trips)" /\
  exists (m : string) (n : nat),
    ScientistDashboard.topMode (ScientistDashboard.getStats shown)
      = m +:+ " (" +:+ Number_toString (Z.of_nat n) +:+ " trips)" /\
    m ∈ map ScientistDashboard.mode shown /\
    n = Spec.trips_with_mode m shown /\
    forall m' : string, Spec.trips_with_mode m' shown <= n.
Proof.
  assert (Hne : [Samples.bus_trip; Samples.family_trip; Samples.station_trip]
                <> []) by discriminate.
  assert (Hord : Forall (fun trip =>
                           Tally.ordinary (ScientistDashboard.mode trip) = true)
                   [Samples.bus_trip; Samples.family_trip; Samples.station_trip])
    by (repeat constructor).
  split; [exact Hne |]. split; [exact Hord |].
  split; [vm_compute; reflexivity |].
  exact (proj2 (proj2 C10_getStats_total _ Hne Hord)).
Defined.

(** C10 as stated fails on a mode named after a member that objects
    inherit.  Reading [__proto__] off the accumulator gives the inherited
    prototype, and assigning the resulting text to it stores nothing, so
    such trips are not counted: a list of one such trip is not empty and
    its most-used mode reads "N/A"; with two such trips and one bus trip
    the entry names bus, with one trip, though the other mode has two.
    Reading [constructor] gives the inherited function, to whose text the
    1 is appended: after one such trip and two bus trips the entry names
    constructor, with that text for a count, though bus has more trips. *)
Lemma C10_proto_mode_not_counted :
  let one := [Examples.proto_trip] in
  let three := [Examples.proto_trip; Examples.proto_trip; Samples.bus_trip] in
  let built :=
    [Examples.constructor_trip; Samples.bus_trip; Samples.station_trip] in
  one <> [] /\
  ScientistDashboard.getStats one = ScientistDashboard.mkStats 1 1 "N/A" /\
  ScientistDashboard.getStats three
    = ScientistDashboard.mkStats 3 1 "bus (1 trips)" /\
  Spec.trips_with_mode "__proto__" three = 2 /\
  ScientistDashboard.topMode (ScientistDashboard.getStats built)
    = ScientistDashboard.topModeText
        ("constructor",
         ScientistDashboard.text
           (ScientistDashboard.native_source "Object" +:+ "1")) /\
  Spec.trips_with_mode "constructor" built = 1 /\
  Spec.trips_with_mode "bus" built = 2 /\
  ~ (exists (m : string) (n : nat),
       ScientistDashboard.topMode (ScientistDashboard.getStats one)
         = m +:+ " (" +:+ Number_toString (Z.of_nat n) +:+ " trips)").
Proof.
  split; [discriminate |].
  split; [vm_compute; reflexivity |].
  split; [vm_compute; reflexivity |].
  split; [reflexivity |].
  split; [vm_compute; reflexivity |].
  split; [reflexivity |].
  split; [reflexivity |].
  intros (m & n & H).
  change (ScientistDashboard.topMode
            (ScientistDashboard.getStats [Examples.proto_trip]))
    with "N/A" in H.
  assert (Hlast : forall s t : string,
            s = t -> Csv.occurs ")" s = Csv.occurs ")" t)
    by (intros; subst; reflexivity).
  apply Hlast in H. rewrite !occurs_append in H. simpl in H.
  rewrite !orb_true_r in H. discriminate H.
Qed.

(** * Further properties of the components *)

Import TripFields.

(** ** TripForm.tsx *)

(** X1: [handleInputChange] stores the value in the named field and in no
    other: every one of the seven fields reads as before unless it is the
    one named; the busy flag, the log and the tables are untouched. *)
Theorem handleInputChange_sets_one_field
    (w : World TripForm.State) (field g : TripForm.Field) (value : string) :
  let w' := exec (TripForm.handleInputChange field value) w in
  field_value g (TripForm.trip (local w'))
    = (if decide (g = field) then value
       else field_value g (TripForm.trip (local w))) /\
  TripForm.isLoading (local w') = TripForm.isLoading (local w) /\
  effects w' = effects w /\
  db w' = db w.
Proof.
  destruct w as [[t busy] es tables]; simpl.
  repeat split. destruct field, g; reflexivity.
Qed.

Lemma slice0_length (n : nat) (s : string) :
  String.length (slice0 n s) <= n.
Proof.
  revert s; induction n as [| n IH]; intros s.
  - destruct s; simpl; lia.
  - destruct s as [| c s]; simpl; [lia |].
    specialize (IH s). lia.
Qed.

(** X2: the mount effect never overwrites what is there.  The position
    callback keeps a non-empty origin and fills an empty one with the
    coordinates, so that of two positions the first non-empty one stays;
    the start-time fill keeps a non-empty start time and otherwise stores
    at most the first sixteen characters of the clock text; each leaves
    the six other fields alone. *)
Theorem mount_effect_only_fills_blanks
    (w : World TripForm.State) (coords coords' now : string)
    (g : TripForm.Field) :
  let t := TripForm.trip (local w) in
  let w1 := exec (TripForm.onPosition coords) w in
  let w2 := exec (TripForm.autofillStartTime now) w in
  (TripForm.origin t <> "" ->
   TripForm.origin (TripForm.trip (local w1)) = TripForm.origin t) /\
  (TripForm.origin t = "" ->
   TripForm.origin (TripForm.trip (local w1)) = coords) /\
  (coords <> "" ->
   TripForm.trip (local (exec (TripForm.onPosition coords') w1))
     = TripForm.trip (local w1)) /\
  (g <> TripForm.k_origin ->
   field_value g (TripForm.trip (local w1)) = field_value g t) /\
  (TripForm.start_time t <> "" ->
   TripForm.start_time (TripForm.trip (local w2)) = TripForm.start_time t) /\
  (TripForm.start_time t = "" ->
   TripForm.start_time (TripForm.trip (local w2)) = slice0 16 now /\
   String.length (slice0 16 now) <= 16) /\
  (g <> TripForm.k_start_time ->
   field_value g (TripForm.trip (local w2)) = field_value g t).
Proof.
  destruct w as [[[tn o d m st en co] busy] es tables]; simpl.
  split; [| split; [| split; [| split; [| split; [| split]]]]].
  - intros Ho. destruct o; [contradiction | reflexivity].
  - intros ->. reflexivity.
  - intros Hc. destruct o; simpl; [| reflexivity].
    destruct coords; [contradiction | reflexivity].
  - intros Hg. destruct g; try reflexivity. contradiction.
  - intros Hs. destruct st; [contradiction | reflexivity].
  - intros ->. split; [reflexivity | exact (slice0_length 16 now)].
  - intros Hg. destruct g; try reflexivity. contradiction.
Qed.

Lemma mount_effect_only_fills_blanks_witness :
  let w := Samples.complete_form in
  let w1 := exec (TripForm.onPosition "8.52410, 76.93660") w in
  TripForm.origin (TripForm.trip (local w)) <> "" /\
  TripForm.origin (TripForm.trip (local w1)) = "Pattom".
Proof.
  assert (H : TripForm.origin (TripForm.trip (local Samples.complete_form)) <> "")
    by discriminate.
  split; [exact H |].
  exact (proj1 (mount_effect_only_fills_blanks Samples.complete_form
                  "8.52410, 76.93660" "" "" TripForm.k_origin) H).
Defined.

Lemma complete_fields (t : TripForm.Trip) :
  complete t = true ->
  truthy (TripForm.origin t) = true /\ truthy (TripForm.destination t) = true
  /\ truthy (TripForm.mode t) = true.
Proof.
  unfold complete. rewrite !andb_true_iff. tauto.
Qed.

(** X3: a complete submission made while the backend reports no user shows
    the "Authentication Error" notice and stops: the user lookup is the
    only backend call (no insert), the form keeps its contents, the tables
    are untouched and the busy flag is down again. *)
Theorem submit_without_user
    (w : World TripForm.State) (inserted : reply (option PostgrestError)) :
  complete (TripForm.trip (local w)) = true ->
  let w' := exec (TripForm.handleSubmit (Resolved None) inserted) w in
  effects w'
    = effects w ++ [awaited auth_getUser; toasted TripForm.authenticationError] /\
  TripForm.trip (local w') = TripForm.trip (local w) /\
  TripForm.isLoading (local w') = false /\
  db w' = db w.
Proof.
  destruct w as [[t busy] es tables]; simpl. intros Hc.
  apply complete_fields in Hc as (Ho & Hd & Hm).
  unfold exec, TripForm.handleSubmit, bind, get, try_catch_finally; simpl.
  rewrite Ho, Hd, Hm; simpl.
  rewrite <- !app_assoc. auto.
Qed.

Lemma submit_without_user_witness :
  let w := Samples.complete_form in
  let w' := exec (TripForm.handleSubmit (Resolved None) (Resolved None)) w in
  complete (TripForm.trip (local w)) = true /\
  effects w'
    = effects w ++ [awaited auth_getUser; toasted TripForm.authenticationError] /\
  TripForm.trip (local w') = TripForm.trip (local w) /\
  TripForm.isLoading (local w') = false /\
  db w' = db w.
Proof.
  assert (H : complete (TripForm.trip (local Samples.complete_form)) = true)
    by reflexivity.
  split; [exact H |].
  exact (submit_without_user Samples.complete_form (Resolved None) H).
Defined.

(** X4: when the user lookup or the insert rejects, a complete submission
    ends with the one notice "An unexpected error occurred. Please try
    again.": the form keeps its contents, the refresh callback is not
    invoked, nothing is stored, and the busy flag is down again. *)
Theorem submit_rejected
    (w : World TripForm.State) (u : User) (x : Exn)
    (inserted : reply (option PostgrestError)) :
  complete (TripForm.trip (local w)) = true ->
  (let w' := exec (TripForm.handleSubmit (Rejected x) inserted) w in
   toasts (effects w') = toasts (effects w) ++ [TripForm.unexpectedError] /\
   calls (effects w') = calls (effects w) ++ [auth_getUser] /\
   TripForm.trip (local w') = TripForm.trip (local w) /\
   invocations onTripSaved (effects w') = invocations onTripSaved (effects w) /\
   TripForm.isLoading (local w') = false /\
   db w' = db w) /\
  (let w' := exec (TripForm.handleSubmit (Resolved (Some u)) (Rejected x)) w in
   toasts (effects w') = toasts (effects w) ++ [TripForm.unexpectedError] /\
   TripForm.trip (local w') = TripForm.trip (local w) /\
   invocations onTripSaved (effects w') = invocations onTripSaved (effects w) /\
   TripForm.isLoading (local w') = false /\
   db w' = db w).
Proof.
  destruct w as [[t busy] es tables]; simpl. intros Hc.
  apply complete_fields in Hc as (Ho & Hd & Hm).
  unfold exec, TripForm.handleSubmit, TripForm.insert, bind, get,
    try_catch_finally; simpl.
  rewrite Ho, Hd, Hm; simpl.
  rewrite <- !app_assoc, !toasts_app, !calls_app, !invocations_app; cbn.
  repeat split; lia.
Qed.

Lemma submit_rejected_witness :
  let w := Samples.complete_form in
  let w' := exec (TripForm.handleSubmit (Resolved (Some Samples.alice))
                    (Rejected "TypeError: Failed to fetch")) w in
  complete (TripForm.trip (local w)) = true /\
  toasts (effects w') = [TripForm.unexpectedError] /\
  db w' = db w.
Proof.
  assert (H : complete (TripForm.trip (local Samples.complete_form)) = true)
    by reflexivity.
  split; [exact H |].
  destruct (proj2 (submit_rejected Samples.complete_form Samples.alice
                     "TypeError: Failed to fetch" (Resolved None) H))
    as (H1 & _ & _ & _ & H5).
  split; [exact H1 | exact H5].
Defined.

Lemma or_empty_or_null (s : string) : or_empty (or_null s) = s.
Proof. destruct s; reflexivity. Qed.

Lemma or_null_None (s : string) : or_null s = None <-> s = "".
Proof.
  unfold or_null. destruct s; simpl; split; intros H;
    try reflexivity; discriminate H.
Qed.

(** X5: a complete submission by a signed-in user makes exactly two backend
    calls, the user lookup and one insert, whatever the insert answers.
    The inserted row carries the user's id and the form's origin,
    destination and mode as they are; each of the four optional fields is
    null exactly when the form field is empty and otherwise holds the form
    field's text.  The row reaches the table only when the insert resolves
    without error. *)
Theorem submit_sends_one_row
    (w : World TripForm.State) (u : User)
    (inserted : reply (option PostgrestError)) :
  let t := TripForm.trip (local w) in
  let row := tripData u t in
  complete t = true ->
  let w' := exec (TripForm.handleSubmit (Resolved (Some u)) inserted) w in
  calls (effects w')
    = calls (effects w) ++ [auth_getUser; from_trips_insert row] /\
  (user_id row = Supabase.id u /\ origin row = TripForm.origin t /\
   destination row = TripForm.destination t /\ mode row = TripForm.mode t) /\
  ((trip_number row = None <-> TripForm.trip_number t = "") /\
   (start_time row = None <-> TripForm.start_time t = "") /\
   (end_time row = None <-> TripForm.end_time t = "") /\
   (companions row = None <-> TripForm.companions t = "")) /\
  (or_empty (trip_number row) = TripForm.trip_number t /\
   or_empty (start_time row) = TripForm.start_time t /\
   or_empty (end_time row) = TripForm.end_time t /\
   or_empty (companions row) = TripForm.companions t) /\
  db w' = match inserted with
          | Resolved None => insert_trip row (db w)
          | _ => db w
          end.
Proof.
  destruct w as [[t busy] es tables]; simpl. intros Hc.
  apply complete_fields in Hc as (Ho & Hd & Hm).
  unfold exec, TripForm.handleSubmit, TripForm.insert, bind, get,
    try_catch_finally; simpl.
  rewrite Ho, Hd, Hm; simpl.
  split; [| split; [| split; [| split]]].
  - destruct inserted as [[e |] | x]; simpl;
      rewrite <- !app_assoc, !calls_app; cbn; reflexivity.
  - auto.
  - rewrite !or_null_None. tauto.
  - rewrite !or_empty_or_null. auto.
  - destruct inserted as [[e |] | x]; reflexivity.
Qed.

Lemma submit_sends_one_row_witness :
  let w := Samples.complete_form in
  let w' := exec (TripForm.handleSubmit (Resolved (Some Samples.alice))
                    (Resolved (Some Samples.permission_denied))) w in
  complete (TripForm.trip (local w)) = true /\
  calls (effects w')
    = [auth_getUser;
       from_trips_insert
         (mkTripsRow "7f3c" (Some "T002") "Pattom" "Kowdiar" "bus"
                     (Some "2025-01-05T09:30") None (Some "two friends"))] /\
  db w' = db w.
Proof.
  assert (H : complete (TripForm.trip (local Samples.complete_form)) = true)
    by reflexivity.
  split; [exact H |].
  destruct (submit_sends_one_row Samples.complete_form Samples.alice
              (Resolved (Some Samples.permission_denied)) H)
    as (H1 & _ & _ & _ & H5).
  split; [exact H1 | exact H5].
Defined.

(** X6: the busy flag never stays up: after a submission that passed the
    guard it is down whatever the backend answered (no user, an error, a
    rejected promise, success); a submission the guard rejected leaves it
    as it was. *)
Theorem submit_clears_busy
    (w : World TripForm.State)
    (getUser : reply (option User)) (inserted : reply (option PostgrestError)) :
  TripForm.isLoading (local (exec (TripForm.handleSubmit getUser inserted) w))
  = (if complete (TripForm.trip (local w)) then false
     else TripForm.isLoading (local w)).
Proof.
  destruct w as [[[tn o d m st en co] busy] es tables].
  unfold exec, TripForm.handleSubmit, TripForm.insert, bind, get,
    try_catch_finally, complete; simpl.
  destruct o, d, m; simpl; try reflexivity;
    destruct getUser as [[u |] | x]; simpl; try reflexivity;
    destruct inserted as [[e |] | x]; reflexivity.
Qed.

Lemma handle_grows_table (ev : TripForm.Event) (w : World TripForm.State) :
  exists added,
    trips (db (exec (TripForm.handle ev) w)) = trips (db w) ++ added /\
    length added <= (if is_submission ev then 1 else 0) /\
    profiles (db (exec (TripForm.handle ev) w)) = profiles (db w).
Proof.
  destruct w as [[[tn o d m st en co] busy] es [ps ts]].
  destruct ev as [coords | now | field value | item | g i]; simpl;
    try (exists []; rewrite app_nil_r; simpl; auto; fail).
  unfold exec, TripForm.handleSubmit, TripForm.insert, bind, get,
    try_catch_finally; simpl.
  destruct o, d, m; simpl;
    try (exists []; rewrite app_nil_r; simpl; auto; fail);
    destruct g as [[u |] | x]; simpl;
    try (exists []; rewrite app_nil_r; simpl; auto; fail);
    destruct i as [[e |] | x]; simpl;
    try (exists []; rewrite app_nil_r; simpl; auto; fail).
  eexists [_]. simpl. auto.
Qed.

(** X7: the form only ever appends to the [trips] table: after any series
    of events the table is the old table followed by new rows, at most one
    per submission; no row is changed or removed, and the [profiles] table
    is never touched. *)
Theorem form_only_appends
    (evs : list TripForm.Event) (w : World TripForm.State) :
  exists added,
    trips (db (TripForm.run evs w)) = trips (db w) ++ added /\
    length added <= submissions evs /\
    profiles (db (TripForm.run evs w)) = profiles (db w).
Proof.
  revert w; induction evs as [| ev evs IH]; intros w; simpl.
  - exists []. rewrite app_nil_r. unfold submissions; simpl. auto.
  - destruct (handle_grows_table ev w) as (a1 & H1 & L1 & P1).
    destruct (IH (exec (TripForm.handle ev) w)) as (a2 & H2 & L2 & P2).
    exists (a1 ++ a2). rewrite H2, H1, <- app_assoc, P2, P1, length_app.
    repeat split. unfold submissions in *; simpl.
    destruct (is_submission ev); simpl; lia.
Qed.

(** ** ConsentPage.tsx *)

(** X8: with the box unchecked the consent submission does nothing at all:
    no backend call, no notice, no callback, no change of state. *)
Theorem consent_unchecked_is_inert
    (w : World ConsentPage.State)
    (getUser : reply (option User))
    (upserted : reply (option PostgrestError)) (now : string) :
  ConsentPage.consent (local w) = false ->
  exec (ConsentPage.handleSubmit getUser upserted now) w = w.
Proof.
  destruct w as [[c busy] es tables]; simpl; intros ->. reflexivity.
Qed.

Lemma consent_unchecked_is_inert_witness :
  let w := mkWorld (ConsentPage.mkState false false) [] Samples.no_tables in
  ConsentPage.consent (local w) = false /\
  exec (ConsentPage.handleSubmit (Resolved (Some Samples.alice))
          (Resolved None) "2025-01-05T09:30:00.000Z") w = w.
Proof.
  assert (H : ConsentPage.consent
                (local (mkWorld (ConsentPage.mkState false false) []
                                Samples.no_tables)) = false) by reflexivity.
  split; [exact H |].
  exact (consent_unchecked_is_inert _ (Resolved (Some Samples.alice))
           (Resolved None) "2025-01-05T09:30:00.000Z" H).
Defined.

(** X9: what a consent submission by a signed-in user logs, by the answer
    to the upsert.  The upserted row always has the user's id, consent
    true and the clock text.  When the upsert resolves, the "Consent
    Recorded" notice is shown and then the callback invoked, an error
    being written to the console first unless its code is 42P01; when the
    upsert rejects, the console gets "Consent error:", no notice is shown,
    and the callback is invoked all the same.  The busy flag ends down. *)
Theorem consent_log_by_answer
    (w : World ConsentPage.State) (u : User)
    (upserted : reply (option PostgrestError)) (now : string) :
  ConsentPage.consent (local w) = true ->
  let w' := exec (ConsentPage.handleSubmit (Resolved (Some u)) upserted now) w in
  effects w'
    = effects w
      ++ [awaited auth_getUser;
          awaited (from_profiles_upsert (mkProfilesRow (Supabase.id u) true now))]
      ++ match upserted with
         | Resolved None =>
             [toasted ConsentPage.consentRecorded; called onConsentGiven]
         | Resolved (Some e) =>
             (if decide (code e = "42P01") then []
              else [console_error "Consent update error:"])
             ++ [toasted ConsentPage.consentRecorded; called onConsentGiven]
         | Rejected _ =>
             [console_error "Consent error:"; called onConsentGiven]
         end /\
  ConsentPage.isLoading (local w') = false.
Proof.
  destruct w as [[c busy] es tables]; simpl; intros ->.
  unfold exec, ConsentPage.handleSubmit, ConsentPage.upsert, bind, get,
    try_catch_finally; simpl.
  destruct upserted as [[e |] | x]; simpl.
  - destruct (decide (code e = "42P01")) as [Hc | Hc].
    + rewrite bool_decide_eq_true_2 by exact Hc; simpl.
      rewrite <- !app_assoc. auto.
    + rewrite bool_decide_eq_false_2 by exact Hc; simpl.
      rewrite <- !app_assoc. auto.
  - rewrite <- !app_assoc. auto.
  - rewrite <- !app_assoc. auto.
Qed.

Lemma consent_log_by_answer_witness :
  let w := Samples.checked_consent in
  let w' := exec (ConsentPage.handleSubmit (Resolved (Some Samples.alice))
                    (Resolved (Some Samples.table_missing))
                    "2025-01-05T09:30:00.000Z") w in
  ConsentPage.consent (local w) = true /\
  effects w'
    = [awaited auth_getUser;
       awaited (from_profiles_upsert
                  (mkProfilesRow "7f3c" true "2025-01-05T09:30:00.000Z"));
       toasted ConsentPage.consentRecorded; called onConsentGiven] /\
  ConsentPage.isLoading (local w') = false.
Proof.
  assert (H : ConsentPage.consent (local Samples.checked_consent) = true)
    by reflexivity.
  split; [exact H |].
  exact (consent_log_by_answer Samples.checked_consent Samples.alice
           (Resolved (Some Samples.table_missing))
           "2025-01-05T09:30:00.000Z" H).
Defined.

(** X10: when the user lookup itself rejects, the consent submission
    invokes the consent callback although no user was found: nothing is
    upserted, no notice is shown, the console gets "Consent error:", and
    the tables are untouched. *)
Theorem consent_granted_when_lookup_rejects
    (w : World ConsentPage.State) (x : Exn)
    (upserted : reply (option PostgrestError)) (now : string) :
  ConsentPage.consent (local w) = true ->
  let w' := exec (ConsentPage.handleSubmit (Rejected x) upserted now) w in
  effects w'
    = effects w ++ [awaited auth_getUser; console_error "Consent error:";
                    called onConsentGiven] /\
  invocations onConsentGiven (effects w')
    = invocations onConsentGiven (effects w) + 1 /\
  toasts (effects w') = toasts (effects w) /\
  db w' = db w.
Proof.
  destruct w as [[c busy] es tables]; simpl; intros ->.
  unfold exec, ConsentPage.handleSubmit, bind, get, try_catch_finally; simpl.
  rewrite <- !app_assoc, toasts_app, invocations_app; cbn.
  rewrite app_nil_r. repeat split. 
Qed.

Lemma consent_granted_when_lookup_rejects_witness :
  let w := Samples.checked_consent in
  let w' := exec (ConsentPage.handleSubmit (Rejected "TypeError: Failed to fetch")
                    (Resolved None) "2025-01-05T09:30:00.000Z") w in
  ConsentPage.consent (local w) = true /\
  invocations onConsentGiven (effects w') = 1 /\
  db w' = db w.
Proof.
  assert (H : ConsentPage.consent (local Samples.checked_consent) = true)
    by reflexivity.
  split; [exact H |].
  destruct (consent_granted_when_lookup_rejects Samples.checked_consent
              "TypeError: Failed to fetch" (Resolved None)
              "2025-01-05T09:30:00.000Z" H) as (_ & H2 & _ & H4).
  split; [exact H2 | exact H4].
Defined.

(** X11: a consent submission touches at most the profile of the user the
    lookup returned: the profile of every other user id, and the whole
    [trips] table, are as before, whatever the backend answers. *)
Theorem consent_touches_own_profile_only
    (w : World ConsentPage.State)
    (getUser : reply (option User))
    (upserted : reply (option PostgrestError)) (now uid : string) :
  (forall u, getUser = Resolved (Some u) -> Supabase.id u <> uid) ->
  let w' := exec (ConsentPage.handleSubmit getUser upserted now) w in
  profiles (db w') !! uid = profiles (db w) !! uid /\
  trips (db w') = trips (db w).
Proof.
  destruct w as [[c busy] es [ps ts]]; simpl. intros Hother.
  unfold exec, ConsentPage.handleSubmit, ConsentPage.upsert, bind, get,
    try_catch_finally; simpl.
  destruct c; simpl; [| auto].
  destruct getUser as [[u |] | x]; simpl; [| auto | auto].
  destruct upserted as [[e |] | x]; simpl.
  - destruct (bool_decide (code e = "42P01")); simpl; auto.
  - split; [| reflexivity].
    apply lookup_insert_ne. exact (Hother u eq_refl).
  - auto.
Qed.

Lemma consent_touches_own_profile_only_witness :
  let w := Samples.checked_consent in
  let w' := exec (ConsentPage.handleSubmit (Resolved (Some Samples.alice))
                    (Resolved None) "2025-01-05T09:30:00.000Z") w in
  (forall u, Resolved (Some Samples.alice) = Resolved (Some u) ->
             Supabase.id u <> "0b9d") /\
  profiles (db w') !! "0b9d" = profiles (db w) !! "0b9d" /\
  trips (db w') = trips (db w).
Proof.
  assert (H : forall u, Resolved (Some Samples.alice) = Resolved (Some u) ->
                        Supabase.id u <> "0b9d").
  { intros u Hu. injection Hu as <-. discriminate. }
  split; [exact H |].
  exact (consent_touches_own_profile_only Samples.checked_consent
           (Resolved (Some Samples.alice)) (Resolved None)
           "2025-01-05T09:30:00.000Z" "0b9d" H).
Defined.

(** ** Index.tsx *)

Lemma step_hasConsented (ev : Session.Event) (st : Index.State) :
  Index.hasConsented (Session.step ev st)
  = if Session.is_consent_given ev then true
    else if Session.is_signed_out ev then false
    else Index.hasConsented st.
Proof.
  destruct st as [u c v l], ev as [s | e s | s | | v']; simpl; try reflexivity.
  unfold Index.onAuthStateChange; destruct e; reflexivity.
Qed.

(** X12: no dashboard without the consent callback.  From the initial
    state, after any series of session lookups, auth notifications,
    sign-in callbacks and view changes that contains no consent callback,
    the consent flag is false and what is rendered is not a dashboard. *)
Theorem no_dashboard_before_consent (evs : list Session.Event) :
  forallb (fun ev => negb (Session.is_consent_given ev)) evs = true ->
  Index.hasConsented (Session.run evs Index.initial) = false /\
  Session.is_dashboard (Index.render (Session.run evs Index.initial)) = false.
Proof.
  assert (Hgen : forall st,
            Index.hasConsented st = false ->
            forallb (fun ev => negb (Session.is_consent_given ev)) evs = true ->
            Index.hasConsented (Session.run evs st) = false).
  { induction evs as [| ev evs IH]; intros st Hst Hevs; simpl; [exact Hst |].
    simpl in Hevs. apply andb_true_iff in Hevs as [Hev Hevs].
    apply IH; [| exact Hevs].
    rewrite step_hasConsented.
    destruct (Session.is_consent_given ev); [discriminate |].
    destruct (Session.is_signed_out ev); [reflexivity | exact Hst]. }
  intros Hevs. specialize (Hgen Index.initial eq_refl Hevs).
  split; [exact Hgen |].
  destruct (Session.run evs Index.initial) as [u c v l]; simpl in *; subst c.
  unfold Index.render; simpl. destruct l, u; reflexivity.
Qed.

Lemma no_dashboard_before_consent_witness :
  let s := mkSession Samples.alice "token" in
  let evs := [Session.initial_session None;
              Session.auth_change Index.SIGNED_IN (Some s);
              Session.auth_success (Some s);
              Session.view_change Index.scientist_view] in
  forallb (fun ev => negb (Session.is_consent_given ev)) evs = true /\
  Index.hasConsented (Session.run evs Index.initial) = false /\
  Session.is_dashboard (Index.render (Session.run evs Index.initial)) = false.
Proof.
  assert (H : forallb (fun ev => negb (Session.is_consent_given ev))
                [Session.initial_session None;
                 Session.auth_change Index.SIGNED_IN
                   (Some (mkSession Samples.alice "token"));
                 Session.auth_success (Some (mkSession Samples.alice "token"));
                 Session.view_change Index.scientist_view] = true)
    by reflexivity.
  split; [exact H |].
  exact (no_dashboard_before_consent _ H).
Defined.

(** X13: consent, once given, is cleared by the signed-out notification
    only.  After any series of events without a signed-out notification
    the flag is still true, whatever sessions (or none) the other
    notifications and lookups carried; a user that then signs in is shown
    a dashboard and not the consent page. *)
Theorem consent_outlives_all_but_sign_out
    (evs : list Session.Event) (st : Index.State) :
  Index.hasConsented st = true ->
  forallb (fun ev => negb (Session.is_signed_out ev)) evs = true ->
  Index.hasConsented (Session.run evs st) = true /\
  forall s : Session,
    Session.is_dashboard
      (Index.render (Index.onAuthSuccess (Some s) (Session.run evs st))) = true.
Proof.
  revert st; induction evs as [| ev evs IH]; intros st Hst Hevs; simpl.
  - split; [exact Hst |]. intros s.
    destruct st as [u c v l]; simpl in *; subst c.
    unfold Index.render; simpl. destruct v; reflexivity.
  - simpl in Hevs. apply andb_true_iff in Hevs as [Hev Hevs].
    apply IH; [| exact Hevs].
    rewrite step_hasConsented.
    destruct (Session.is_consent_given ev); [reflexivity |].
    destruct (Session.is_signed_out ev); [discriminate | exact Hst].
Qed.

Lemma consent_outlives_all_but_sign_out_witness :
  let st := Index.mkState (Some Samples.alice) true Index.user_view false in
  let evs := [Session.auth_change Index.TOKEN_REFRESHED None] in
  Index.hasConsented st = true /\
  forallb (fun ev => negb (Session.is_signed_out ev)) evs = true /\
  Index.user (Session.run evs st) = None /\
  Index.hasConsented (Session.run evs st) = true.
Proof.
  assert (H1 : Index.hasConsented
                 (Index.mkState (Some Samples.alice) true Index.user_view false)
               = true) by reflexivity.
  assert (H2 : forallb (fun ev => negb (Session.is_signed_out ev))
                 [Session.auth_change Index.TOKEN_REFRESHED None] = true)
    by reflexivity.
  split; [exact H1 |]. split; [exact H2 |]. split; [reflexivity |].
  exact (proj1 (consent_outlives_all_but_sign_out _ _ H1 H2)).
Defined.

(** X14: the current view is changed by the navigation only: after any
    series of events it is the view the last view change asked for (the
    view before, when there was none); signing out and in again, and
    giving consent, do not reset it. *)
Theorem view_follows_navigation_only
    (evs : list Session.Event) (st : Index.State) :
  Index.currentView (Session.run evs st)
  = Session.last_view evs (Index.currentView st).
Proof.
  revert st; induction evs as [| ev evs IH]; intros st; simpl; [reflexivity |].
  rewrite IH. destruct st as [u c v l].
  destruct ev as [s | e s | s | | v']; simpl; try reflexivity.
  unfold Index.onAuthStateChange; destruct e; reflexivity.
Qed.

(** ** Dashboard.tsx *)

(** Flatten a log that grew by nested appends and read the notices, calls
    and callbacks off its known tail. *)
Ltac tidy_log :=
  rewrite <- ?app_assoc, ?calls_app, ?toasts_app, ?invocations_app; cbn;
  rewrite ?app_nil_r.

(** X15: the user's listing asks the backend for the user's own trips
    only.  Whatever the backend answers, the calls it makes are the user
    lookup, followed by one select filtered by the id of the user the
    lookup returned, and by nothing when the lookup returned no user or
    rejected; the busy flag ends down. *)
Theorem fetchTrips_selects_own_trips
    (w : World Dashboard.State)
    (getUser : reply (option User))
    (selected : reply (response Dashboard.Trip)) :
  let w' := exec (Dashboard.fetchTrips getUser selected) w in
  calls (effects w')
    = calls (effects w)
      ++ match getUser with
         | Resolved (Some u) =>
             [auth_getUser; from_trips_select (Some (Supabase.id u))]
         | _ => [auth_getUser]
         end /\
  Dashboard.isLoading (local w') = false.
Proof.
  destruct w as [[sf ts busy usr] es tables]; simpl.
  unfold exec, Dashboard.fetchTrips, bind, try_catch_finally; simpl.
  destruct getUser as [[u |] | x]; simpl.
  - destruct selected as [[l | e] | x]; simpl.
    + tidy_log. auto.
    + destruct (bool_decide (code e = "42P01")); simpl; tidy_log; auto.
    + tidy_log. auto.
  - tidy_log. auto.
  - tidy_log. auto.
Qed.

(** X16: how the user's listing ends.  With no
    user the fetch stops silently: no select, no notice, the list as it
    was.  When the select answers with rows the list becomes exactly those
    rows and no notice is shown.  When the lookup or the select rejects,
    one "Unexpected Error" notice carries the thrown message and the list
    is as it was. *)
Theorem fetchTrips_outcomes
    (w : World Dashboard.State) (u : User)
    (selected : reply (response Dashboard.Trip))
    (l : list Dashboard.Trip) (x : Exn) :
  (let w' := exec (Dashboard.fetchTrips (Resolved None) selected) w in
   effects w' = effects w ++ [awaited auth_getUser] /\
   Dashboard.trips (local w') = Dashboard.trips (local w)) /\
  (let w' := exec (Dashboard.fetchTrips (Resolved (Some u))
                                        (Resolved (rows l))) w in
   Dashboard.trips (local w') = l /\
   toasts (effects w') = toasts (effects w)) /\
  (let w' := exec (Dashboard.fetchTrips (Resolved (Some u)) (Rejected x)) w in
   toasts (effects w')
     = toasts (effects w) ++ [mkToast "Unexpected Error" x destructive] /\
   Dashboard.trips (local w') = Dashboard.trips (local w)) /\
  (let w' := exec (Dashboard.fetchTrips (Rejected x) selected) w in
   toasts (effects w')
     = toasts (effects w) ++ [mkToast "Unexpected Error" x destructive] /\
   Dashboard.trips (local w') = Dashboard.trips (local w)).
Proof.
  destruct w as [[sf ts busy usr] es tables]; simpl.
  unfold exec, Dashboard.fetchTrips, bind, try_catch_finally; simpl.
  tidy_log. repeat split.
Qed.

(** X17: the trip form's callback closes the form and refreshes the list:
    after [handleTripSaved] the form is hidden whatever the backend
    answers; the list is the rows the select returned, and it is the old
    list when the select returned an error of a code other than 42P01. *)
Theorem handleTripSaved_closes_and_refreshes
    (w : World Dashboard.State) (u : User)
    (getUser : reply (option User))
    (selected : reply (response Dashboard.Trip)) :
  Dashboard.showForm
    (local (exec (DashboardView.handleTripSaved getUser selected) w)) = false /\
  (forall l,
     Dashboard.trips
       (local (exec (DashboardView.handleTripSaved
                       (Resolved (Some u)) (Resolved (rows l))) w)) = l) /\
  (forall e,
     code e <> "42P01" ->
     Dashboard.trips
       (local (exec (DashboardView.handleTripSaved
                       (Resolved (Some u)) (Resolved (failure e))) w))
     = Dashboard.trips (local w)).
Proof.
  destruct w as [[sf ts busy usr] es tables].
  unfold exec, DashboardView.handleTripSaved, Dashboard.fetchTrips, bind,
    try_catch_finally; simpl.
  split; [| split].
  - destruct getUser as [[u' |] | x]; simpl; try reflexivity.
    destruct selected as [[l | e] | x]; simpl; try reflexivity.
    destruct (bool_decide (code e = "42P01")); reflexivity.
  - reflexivity.
  - intros e He. rewrite bool_decide_eq_false_2 by exact He. reflexivity.
Qed.

Lemma size_list_to_set_le (l : list string) :
  size (list_to_set l : gset string) <= length l.
Proof.
  induction l as [| x l IH].
  - change (list_to_set [] : gset string) with (∅ : gset string).
    rewrite size_empty. simpl. lia.
  - change (list_to_set (x :: l) : gset string)
      with ({[x]} ∪ list_to_set l : gset string).
    rewrite size_union_alt, size_singleton.
    assert (Hsub : size (list_to_set l ∖ {[x]} : gset string)
                   <= size (list_to_set l : gset string))
      by (apply subseteq_size, subseteq_difference_l; reflexivity).
    simpl. lia.
Qed.

Lemma filter_length_le {A} (p : A -> bool) (l : list A) :
  length (List.filter p l) <= length l.
Proof.
  induction l as [| x l IH]; simpl; [lia |]. destruct (p x); simpl; lia.
Qed.

(** X18: the three cards of the user's dashboard.  The number of unique
    locations is at most twice the number of trips, and at least one when
    there is a trip; the number of group trips is at most the number of
    trips, and a trip whose companions are [null] or the empty text is not
    counted. *)
Theorem dashboard_cards_bounds (shown : list Dashboard.Trip) :
  DashboardView.uniqueLocations shown <= 2 * DashboardView.totalTrips shown /\
  (shown <> [] -> 1 <= DashboardView.uniqueLocations shown) /\
  DashboardView.groupTrips shown <= DashboardView.totalTrips shown /\
  (forall t : Dashboard.Trip,
     Dashboard.companions t = None \/ Dashboard.companions t = Some "" ->
     DashboardView.groupTrips (t :: shown) = DashboardView.groupTrips shown).
Proof.
  unfold DashboardView.uniqueLocations, DashboardView.totalTrips,
    DashboardView.groupTrips.
  split; [| split; [| split]].
  - etransitivity; [apply size_list_to_set_le |].
    induction shown as [| t shown IH]; simpl; lia.
  - destruct shown as [| t shown]; [contradiction |]. intros _. simpl.
    assert (Hin : Dashboard.origin t
                  ∈ ({[Dashboard.origin t]}
                     ∪ ({[Dashboard.destination t]}
                        ∪ list_to_set
                            (flat_map (fun t => [Dashboard.origin t;
                                                 Dashboard.destination t])
                                      shown)) : gset string))
      by (apply elem_of_union_l, elem_of_singleton; reflexivity).
    destruct (size _) eqn:Hsz; [| lia].
    apply size_empty_inv in Hsz.
    rewrite Hsz in Hin. now apply not_elem_of_empty in Hin.
  - apply filter_length_le.
  - intros t [Hc | Hc]; simpl; rewrite Hc; reflexivity.
Qed.

(** ** ScientistDashboard.tsx: fetching *)

(** X19: the research listing makes one select without a user filter.
    Rows replace the list and show no notice; a rejected select is written
    to the console only, shows no notice and leaves the list as it was; in
    every case the busy flag ends down. *)
Theorem fetchAllTrips_outcomes
    (w : World ScientistDashboard.State)
    (selected : reply (response ScientistDashboard.Trip)) :
  let w' := exec (ScientistDashboard.fetchAllTrips selected) w in
  calls (effects w') = calls (effects w) ++ [from_trips_select None] /\
  ScientistDashboard.isLoading (local w') = false /\
  (forall l, selected = Resolved (rows l) ->
     ScientistDashboard.trips (local w') = l /\
     toasts (effects w') = toasts (effects w)) /\
  (forall x, selected = Rejected x ->
     ScientistDashboard.trips (local w') = ScientistDashboard.trips (local w) /\
     toasts (effects w') = toasts (effects w) /\
     effects w'
       = effects w ++ [awaited (from_trips_select None);
                       console_error "Unexpected error fetching trips:"]).
Proof.
  destruct w as [[ts fs term mf busy] es tables]; simpl.
  unfold exec, ScientistDashboard.fetchAllTrips, bind, try_catch_finally; simpl.
  destruct selected as [[l | e] | x]; simpl.
  - tidy_log. split; [reflexivity |]. split; [reflexivity |]. split.
    + intros l' [= <-]. auto.
    + intros x H. discriminate H.
  - destruct (bool_decide (code e = "42P01")); simpl; tidy_log;
      (split; [reflexivity |]; split; [reflexivity |]; split;
       [intros l' H; discriminate H | intros x H; discriminate H]).
  - tidy_log. split; [reflexivity |]. split; [reflexivity |]. split.
    + intros l' H. discriminate H.
    + intros x' [= <-]. auto.
Qed.

(** ** ScientistDashboard.tsx: filtering *)

Lemma filter_sublist {A} (p : A -> bool) (l : list A) :
  sublist (List.filter p l) l.
Proof.
  induction l as [| x l IH]; simpl; [constructor |].
  destruct (p x); [now apply sublist_skip | now apply sublist_cons].
Qed.

Lemma filter_idem {A} (p : A -> bool) (l : list A) :
  List.filter p (List.filter p l) = List.filter p l.
Proof.
  rewrite filter_filter. apply List.filter_ext. intros x. now destruct (p x).
Qed.

(** X20: the filter only removes trips and decides each trip on its own,
    whatever lowering does: the filtered list is a sublist of the fetched
    list (same order, no trip added or repeated), filtering twice is
    filtering once, and the filter of two lists put end to end is the two
    filtered lists put end to end. *)
Theorem filter_narrows
    (lower : string -> string)
    (a b : list ScientistDashboard.Trip) (searchTerm modeFilter : string) :
  sublist (ScientistDashboard.filtered lower a searchTerm modeFilter) a /\
  ScientistDashboard.filtered lower
    (ScientistDashboard.filtered lower a searchTerm modeFilter)
    searchTerm modeFilter
  = ScientistDashboard.filtered lower a searchTerm modeFilter /\
  ScientistDashboard.filtered lower (a ++ b) searchTerm modeFilter
  = ScientistDashboard.filtered lower a searchTerm modeFilter
    ++ ScientistDashboard.filtered lower b searchTerm modeFilter.
Proof.
  rewrite !filtered_keeps. split; [apply filter_sublist |].
  split; [apply filter_idem | apply List.filter_app].
Qed.




(** X22: the export writes what the filter shows, whatever lowering does.
    Running the filtering effect and then the export hands over one file,
    natpac_trip_data.csv, whose text is the CSV of the fetched trips
    restricted by the current term and mode; the filtering effect changes
    the filtered list only, the export changes no state at all, and neither
    makes a backend call. *)
Theorem export_follows_filter
    (lower : string -> string) (w : World ScientistDashboard.State) :
  let st := local w in
  let w1 := exec (ScientistDashboard.filterEffect lower) w in
  let w2 := exec ScientistDashboard.exportData w1 in
  effects w2
    = effects w
      ++ [downloaded "natpac_trip_data.csv" "text/csv"
            (ScientistDashboard.csvContent
               (ScientistDashboard.filtered lower
                  (ScientistDashboard.trips st)
                  (ScientistDashboard.searchTerm st)
                  (ScientistDashboard.modeFilter st)))] /\
  local w1
    = ScientistDashboard.mkState
        (ScientistDashboard.trips st)
        (ScientistDashboard.filtered lower
           (ScientistDashboard.trips st)
           (ScientistDashboard.searchTerm st)
           (ScientistDashboard.modeFilter st))
        (ScientistDashboard.searchTerm st)
        (ScientistDashboard.modeFilter st)
        (ScientistDashboard.isLoading st) /\
  local w2 = local w1 /\
  calls (effects w2) = calls (effects w) /\
  db w2 = db w.
Proof.
  destruct w as [[ts fs term mf busy] es tables]; simpl.
  tidy_log. repeat split.
Qed.

(** ** ScientistDashboard.tsx: the exported text in general *)

Lemma count_char_append (c : ascii) (a b : string) :
  Measures.count_char c (a +:+ b)
  = Measures.count_char c a + Measures.count_char c b.
Proof.
  induction a as [| x a IH]; [reflexivity |].
  rewrite append_cons; simpl. rewrite IH. lia.
Qed.

Lemma count_char_free (c : ascii) (s : string) :
  Csv.occurs c s = false -> Measures.count_char c s = 0.
Proof.
  induction s as [| x s IH]; simpl; [reflexivity |].
  intros H. apply orb_false_iff in H as [Hx Hs].
  rewrite Hx, (IH Hs). reflexivity.
Qed.

Lemma split_length (sep : ascii) (s : string) :
  length (Csv.split sep s) = S (Measures.count_char sep s).
Proof.
  induction s as [| c s IH]; simpl; [reflexivity |].
  destruct (decide (c = sep)) as [-> | Hne].
  - rewrite bool_decide_eq_true_2 by reflexivity. simpl. now rewrite IH.
  - rewrite bool_decide_eq_false_2 by exact Hne. simpl.
    destruct (Csv.split sep s); simpl in *; lia.
Qed.

(** Joining with a separator that does not contain the character adds no
    occurrence of it. *)
Lemma count_char_join_other (c : ascii) (sep : string) (xs : list string) :
  Measures.count_char c sep = 0 ->
  Measures.count_char c (join sep xs)
  = sum_list (map (Measures.count_char c) xs).
Proof.
  intros Hsep. induction xs as [| x xs IH]; [reflexivity |].
  destruct xs as [| y xs]; [simpl; lia |].
  change (join sep (x :: y :: xs)) with (x +:+ sep +:+ join sep (y :: xs)).
  rewrite !count_char_append, Hsep, IH. simpl. lia.
Qed.

(** Joining lines with the character itself adds one occurrence between
    each two lines. *)
Lemma count_char_join_self (c : ascii) (xs : list string) :
  xs <> [] ->
  S (Measures.count_char c (join (String c "") xs))
  = length xs + sum_list (map (Measures.count_char c) xs).
Proof.
  induction xs as [| x xs IH]; intros Hne; [contradiction |].
  destruct xs as [| y xs]; [simpl; lia |].
  change (join (String c "") (x :: y :: xs))
    with (x +:+ String c "" +:+ join (String c "") (y :: xs)).
  rewrite !count_char_append.
  assert (Hc : Measures.count_char c (String c "") = 1).
  { simpl. rewrite bool_decide_eq_true_2 by reflexivity. reflexivity. }
  rewrite Hc. specialize (IH ltac:(discriminate)).
  simpl in *. lia.
Qed.

Lemma line_feeds_row (trip : ScientistDashboard.Trip) :
  Measures.count_char newline (join "," (ScientistDashboard.cells trip))
  = Measures.line_feeds trip.
Proof.
  rewrite count_char_join_other by reflexivity.
  rewrite cells_texts. unfold Measures.line_feeds.
  change (map (Measures.count_char newline)
              (Number_toString (ScientistDashboard.id trip) :: Csv.texts trip))
    with (Measures.count_char newline
            (Number_toString (ScientistDashboard.id trip))
          :: map (Measures.count_char newline) (Csv.texts trip)).
  rewrite count_char_free
    by (apply occurs_Number_toString; right; reflexivity).
  reflexivity.
Qed.

(** X23: what reading an export back gives for any filtered list, whatever
    its texts contain.  The first line read is always the nine-name header;
    the number of data rows read is the number of trips plus the number of
    line feeds in their text fields, so rows are never lost or merged and
    each line feed inside a field adds one row.  An empty list exports the
    header alone. *)
Theorem export_rows_in_general (shown : list ScientistDashboard.Trip) :
  let text := ScientistDashboard.csvContent shown in
  Csv.header_row text = Some ScientistDashboard.header /\
  length (Csv.data_rows text)
    = length shown + sum_list (map Measures.line_feeds shown) /\
  (shown = [] -> Csv.read text = [ScientistDashboard.header]).
Proof.
  set (hline := join "," ScientistDashboard.header).
  assert (Hfree : Csv.occurs newline hline = false) by reflexivity.
  assert (Hhead : Csv.split comma hline = ScientistDashboard.header)
    by reflexivity.
  unfold Csv.header_row, Csv.data_rows, Csv.read, Csv.lines,
    ScientistDashboard.csvContent.
  destruct shown as [| trip rest].
  - simpl. repeat split.
  - change (map (join ",")
              (ScientistDashboard.header
               :: map ScientistDashboard.cells (trip :: rest)))
      with (hline :: map (join ",")
                       (map ScientistDashboard.cells (trip :: rest))).
    set (rows := map (join ",") (map ScientistDashboard.cells (trip :: rest))).
    assert (Hjoin : join (String newline "") (hline :: rows)
                    = hline +:+ String newline (join (String newline "") rows)).
    { unfold rows. simpl map.
      change (join (String newline "") (hline :: ?r))
        with (hline +:+ String newline "" +:+ join (String newline "") r).
      reflexivity. }
    rewrite Hjoin, (split_append newline hline _ Hfree).
    rewrite List.map_cons, Hhead. cbn [head tail].
    split; [reflexivity |]. split; [| discriminate].
    rewrite length_map, split_length.
    rewrite (count_char_join_self newline rows) by discriminate.
    unfold rows. rewrite !length_map, !List.map_map.
    f_equal. f_equal. apply List.map_ext. intros t. apply line_feeds_row.
Qed.

(** ** ScientistDashboard.tsx: statistics *)

Lemma counted_write (acc : Tally.Counts) (k : string) :
  Measures.counted (Tally.write acc k (default 0 (Tally.read acc k) + 1))
  = Measures.counted acc + 1.
Proof.
  unfold Measures.counted.
  induction acc as [| [k' v'] acc IH]; simpl; [reflexivity |].
  destruct (decide (k' = k)); simpl; [lia |]. rewrite IH. lia.
Qed.

Lemma counted_tally
    (trips : list ScientistDashboard.Trip) (acc : Tally.Counts) :
  Measures.counted (fold_left Tally.tally trips acc)
  = Measures.counted acc + length trips.
Proof.
  revert acc; induction trips as [| t trips IH]; intros acc; simpl; [lia |].
  rewrite IH. unfold Tally.tally. rewrite counted_write. lia.
Qed.

Lemma set_own_keys
    (acc : ScientistDashboard.Counts) (k : string)
    (v : ScientistDashboard.Value) :
  NoDup (map fst acc) ->
  NoDup (map fst (ScientistDashboard.set_own acc k v)) /\
  forall k', k' ∈ map fst (ScientistDashboard.set_own acc k v)
             <-> k' = k \/ k' ∈ map fst acc.
Proof.
  induction acc as [| [k0 v0] acc IH]; simpl; intros Hnd.
  - split; [apply NoDup_singleton |].
    intros k'. rewrite list_elem_of_singleton, elem_of_nil. tauto.
  - apply NoDup_cons in Hnd as [Hk0 Hnd].
    destruct (IH Hnd) as [IHnd IHin].
    destruct (decide (k0 = k)) as [-> | Hne]; simpl.
    + split; [now apply NoDup_cons |].
      intros k'. rewrite elem_of_cons. tauto.
    + split.
      * apply NoDup_cons. split; [| exact IHnd].
        rewrite IHin. intros [-> | H]; [now apply Hne | now apply Hk0].
      * intros k'. rewrite !elem_of_cons, IHin. tauto.
Qed.

(** Whatever the modes are, the accumulator object has each key once, and
    every key it gains is the mode of a trip. *)
Lemma accumulator_keys
    (trips : list ScientistDashboard.Trip) (acc : ScientistDashboard.Counts) :
  NoDup (map fst acc) ->
  NoDup (map fst (fold_left ScientistDashboard.tally trips acc)) /\
  forall m, m ∈ map fst (fold_left ScientistDashboard.tally trips acc) ->
            m ∈ map fst acc \/ m ∈ map ScientistDashboard.mode trips.
Proof.
  revert acc; induction trips as [| t trips IH]; intros acc Hnd; simpl.
  - split; [exact Hnd | intros m Hm; left; exact Hm].
  - assert (Hstep : NoDup (map fst (ScientistDashboard.tally acc t)) /\
                    forall k', k' ∈ map fst (ScientistDashboard.tally acc t) ->
                               k' = ScientistDashboard.mode t
                               \/ k' ∈ map fst acc).
    { unfold ScientistDashboard.tally, ScientistDashboard.write.
      destruct (bool_decide (ScientistDashboard.mode t = "__proto__")).
      - split; [exact Hnd | intros k' Hk'; right; exact Hk'].
      - destruct (set_own_keys acc (ScientistDashboard.mode t)
                    (ScientistDashboard.plus_one
                       (ScientistDashboard.read acc (ScientistDashboard.mode t)))
                    Hnd) as [H1 H2].
        split; [exact H1 | intros k' Hk'; apply H2; exact Hk']. }
    destruct Hstep as [Hnd' Hin'].
    destruct (IH _ Hnd') as [IHnd IHin]. split; [exact IHnd |].
    intros m Hm. destruct (IHin m Hm) as [Hacc | Hrest].
    + destruct (Hin' m Hacc) as [-> | Hold]; [right; left | left; exact Hold].
    + right. right. exact Hrest.
Qed.

(** X24: what the tally of [getStats] accounts for.  Whatever the modes
    are, the accumulator has each key once, every key is the mode of some
    trip, and the number of distinct users is at most the number of trips
    and at least one when there is a trip.  When no trip's mode is
    [__proto__] or the name of a function that objects inherit, the
    accumulator holds numbers only, one entry per mode that occurs, the
    entry of a mode being the number of trips with that mode, and the
    counts add up to the number of trips. *)
Theorem stats_account_for_every_trip (shown : list ScientistDashboard.Trip) :
  NoDup (map fst (ScientistDashboard.modeCounts shown)) /\
  (forall m : string,
     m ∈ map fst (ScientistDashboard.modeCounts shown) ->
     m ∈ map ScientistDashboard.mode shown) /\
  ScientistDashboard.uniqueUsers (ScientistDashboard.getStats shown)
    <= ScientistDashboard.totalTrips (ScientistDashboard.getStats shown) /\
  (shown <> [] ->
   1 <= ScientistDashboard.uniqueUsers (ScientistDashboard.getStats shown)) /\
  (Forall (fun trip => Tally.ordinary (ScientistDashboard.mode trip) = true)
          shown ->
   exists counts : Tally.Counts,
     ScientistDashboard.modeCounts shown = map Tally.as_number counts /\
     Measures.counted counts = length shown /\
     (forall m : string,
        m ∈ map fst counts <-> m ∈ map ScientistDashboard.mode shown) /\
     (forall (m : string) (n : nat),
        (m, n) ∈ counts <-> n = Spec.trips_with_mode m shown /\ 0 < n)).
Proof.
  destruct (accumulator_keys shown [] (NoDup_nil_2 (A := string)))
    as [Hnd Hkeys].
  split; [exact Hnd |].
  split.
  { intros m Hm. destruct (Hkeys m Hm) as [Hnil | Hin]; [| exact Hin].
    now apply elem_of_nil in Hnil. }
  split.
  { simpl. etransitivity; [apply size_list_to_set_le |]. now rewrite length_map. }
  split.
  { destruct shown as [| t rest]; [contradiction |]. intros _. simpl.
    destruct (size _) eqn:Hsz; [| lia].
    apply size_empty_inv in Hsz.
    assert (Hin : ScientistDashboard.user_id t
                  ∈ ({[ScientistDashboard.user_id t]}
                     ∪ list_to_set (map ScientistDashboard.user_id rest)
                     : gset string)).
    { apply elem_of_union_l, elem_of_singleton. reflexivity. }
    rewrite Hsz in Hin. now apply not_elem_of_empty in Hin. }
  intros Hord. exists (Tally.modeCounts shown).
  split; [exact (modeCounts_as_number shown Hord) |].
  split; [unfold Tally.modeCounts; now rewrite counted_tally |].
  split; [| intros m n; apply modeCounts_spec].
  intros m. rewrite <- trips_with_mode_positive. split.
  - intros Hm. apply list_elem_of_fmap in Hm as ([m' n] & -> & Hin).
    apply modeCounts_spec in Hin as [-> Hpos]. simpl. exact Hpos.
  - intros Hpos. apply list_elem_of_fmap.
    exists (m, Spec.trips_with_mode m shown). split; [reflexivity |].
    apply modeCounts_spec. split; [reflexivity | exact Hpos].
Qed.

Lemma stats_account_for_every_trip_witness :
  let shown := [Samples.bus_trip; Samples.family_trip; Samples.station_trip] in
  Forall (fun trip => Tally.ordinary (ScientistDashboard.mode trip) = true)
         shown /\
  shown <> [] /\
  ScientistDashboard.modeCounts shown
    = [("bus", ScientistDashboard.number 2);
       ("car", ScientistDashboard.number 1)] /\
  1 <= ScientistDashboard.uniqueUsers (ScientistDashboard.getStats shown) /\
  exists counts : Tally.Counts,
    ScientistDashboard.modeCounts shown = map Tally.as_number counts /\
    Measures.counted counts = length shown /\
    (forall m : string,
       m ∈ map fst counts <-> m ∈ map ScientistDashboard.mode shown) /\
    (forall (m : string) (n : nat),
       (m, n) ∈ counts <-> n = Spec.trips_with_mode m shown /\ 0 < n).
Proof.
  assert (Hord : Forall (fun trip =>
                           Tally.ordinary (ScientistDashboard.mode trip) = true)
                   [Samples.bus_trip; Samples.family_trip; Samples.station_trip])
    by (repeat constructor).
  assert (Hne : [Samples.bus_trip; Samples.family_trip; Samples.station_trip]
                <> []) by discriminate.
  split; [exact Hord |]. split; [exact Hne |].
  split; [vm_compute; reflexivity |].
  split.
  - exact (proj1 (proj2 (proj2 (proj2
             (stats_account_for_every_trip _)))) Hne).
  - exact (proj2 (proj2 (proj2 (proj2
             (stats_account_for_every_trip _)))) Hord).
Defined.

Lemma head_insert_desc (x : string * nat) (l : Tally.Counts) :
  head (Tally.insert_desc x l)
  = Some (match head l with
          | Some h => if snd x <? snd h then h else x
          | None => x
          end).
Proof.
  destruct l as [| y l]; simpl; [reflexivity |].
  destruct (snd x <? snd y); reflexivity.
Qed.

(** The first entry after the stable sort is the leftmost entry with the
    largest count. *)
Lemma head_sort_desc_leftmost (l : Tally.Counts) (top : string * nat) :
  head (Tally.sort_desc l) = Some top ->
  exists pre post,
    l = pre ++ top :: post /\
    Forall (fun e => snd e < snd top) pre /\
    Forall (fun e => snd e <= snd top) post.
Proof.
  revert top; induction l as [| x l IH]; intros top; simpl; [discriminate |].
  rewrite head_insert_desc.
  destruct (head (Tally.sort_desc l)) as [h |] eqn:Hh.
  - destruct (IH h eq_refl) as (pre & post & -> & Hpre & Hpost).
    destruct (Nat.ltb_spec (snd x) (snd h)) as [Hlt | Hge]; intros [= <-].
    + exists (x :: pre), post. split; [reflexivity |].
      split; [constructor; assumption | exact Hpost].
    + exists [], (pre ++ h :: post). split; [reflexivity |].
      split; [constructor |].
      apply Forall_app. split.
      * eapply Forall_impl; [exact Hpre |]. simpl. intros e He. lia.
      * constructor; [exact Hge |].
        eapply Forall_impl; [exact Hpost |]. simpl. intros e He. lia.
  - intros [= <-].
    assert (Hl : l = []).
    { pose proof (sort_desc_perm l) as Hp.
      destruct (Tally.sort_desc l); [| discriminate].
      symmetry in Hp. now apply Permutation_nil_r in Hp. }
    subst l. exists [], []. repeat split; constructor.
Qed.

Lemma write_keys_order (acc : Tally.Counts) (k : string) (v : nat) :
  map fst (Tally.write acc k v)
  = if bool_decide (k ∈ map fst acc) then map fst acc
    else map fst acc ++ [k].
Proof.
  induction acc as [| [k' v'] acc IH]; simpl; [reflexivity |].
  destruct (decide (k' = k)) as [-> | Hne]; simpl.
  - rewrite bool_decide_eq_true_2 by left. reflexivity.
  - rewrite IH.
    destruct (bool_decide_reflect (k ∈ map fst acc)) as [Hin | Hnin].
    + rewrite bool_decide_eq_true_2 by (right; exact Hin). reflexivity.
    + rewrite bool_decide_eq_false_2; [reflexivity |].
      intros Hin. apply elem_of_cons in Hin as [-> | Hin]; contradiction.
Qed.

Lemma tally_keys_order
    (trips : list ScientistDashboard.Trip) (acc : Tally.Counts) :
  map fst (fold_left Tally.tally trips acc)
  = Measures.add_new (map fst acc) (map ScientistDashboard.mode trips).
Proof.
  revert acc; induction trips as [| t trips IH]; intros acc; simpl;
    [reflexivity |].
  rewrite IH. unfold Tally.tally. now rewrite write_keys_order.
Qed.

Lemma as_number_keys (l : Tally.Counts) :
  map fst (map Tally.as_number l) = map fst l.
Proof. induction l as [| [k v] l IH]; simpl; [reflexivity | now rewrite IH]. Qed.

(** X25: how [getStats] breaks ties, for trips none of whose modes is
    [__proto__] or the name of a function that objects inherit.  The
    accumulator has the modes in the order of their first appearance in the
    filtered list.  The mode shown as most used is the first entry with the
    largest count in the order of [Object.entries]: every entry listed
    before it has strictly fewer trips, every entry listed after it has at
    most as many.  When moreover no mode is the decimal text of an array
    index, [Object.entries] lists the accumulator as it is, so that the
    order is that of first appearance. *)
Theorem top_mode_is_first_among_largest
    (shown : list ScientistDashboard.Trip) :
  shown <> [] ->
  Forall (fun trip => Tally.ordinary (ScientistDashboard.mode trip) = true)
         shown ->
  map fst (ScientistDashboard.modeCounts shown)
    = Measures.first_appearances (map ScientistDashboard.mode shown) /\
  (exists (m : string) (n : nat) (before after : Tally.Counts),
     ScientistDashboard.topMode (ScientistDashboard.getStats shown)
       = ScientistDashboard.topModeText (m, ScientistDashboard.number n) /\
     ScientistDashboard.entries (ScientistDashboard.modeCounts shown)
       = map Tally.as_number (before ++ (m, n) :: after) /\
     Forall (fun e => snd e < n) before /\
     Forall (fun e => snd e <= n) after) /\
  (Forall (fun trip => Tally.plain (ScientistDashboard.mode trip) = true)
          shown ->
   ScientistDashboard.entries (ScientistDashboard.modeCounts shown)
   = ScientistDashboard.modeCounts shown).
Proof.
  intros Hne Hord. split; [| split].
  - rewrite (modeCounts_as_number shown Hord), as_number_keys.
    apply (tally_keys_order shown []).
  - unfold ScientistDashboard.getStats; simpl.
    rewrite (top_entry_as_number shown Hord).
    rewrite (modeCounts_as_number shown Hord), entries_as_number.
    destruct (head (Tally.sort_desc
                      (ScientistDashboard.entries (Tally.modeCounts shown))))
      as [[m n] |] eqn:Hhead; simpl.
    + destruct (head_sort_desc_leftmost _ _ Hhead)
        as (pre & post & H1 & H2 & H3).
      exists m, n, pre, post. rewrite H1. auto.
    + exfalso.
      destruct shown as [| trip rest]; [contradiction |].
      assert (Hin : (ScientistDashboard.mode trip,
                     Spec.trips_with_mode (ScientistDashboard.mode trip)
                                          (trip :: rest))
                    ∈ Tally.modeCounts (trip :: rest)).
      { apply modeCounts_spec. split; [reflexivity |].
        apply trips_with_mode_positive. left. }
      rewrite <- (entries_perm (Tally.modeCounts (trip :: rest))) in Hin.
      rewrite <- (sort_desc_perm
                    (ScientistDashboard.entries
                       (Tally.modeCounts (trip :: rest)))) in Hin.
      destruct (Tally.sort_desc _); [| discriminate].
      now apply elem_of_nil in Hin.
  - intros Hplain. apply entries_plain.
    destruct (accumulator_keys shown [] (NoDup_nil_2 (A := string)))
      as [_ Hkeys].
    apply Forall_forall. intros [k v] Hin. simpl.
    assert (Hk : k ∈ map ScientistDashboard.mode shown).
    { destruct (Hkeys k) as [Hnil | Hk]; [| now apply elem_of_nil in Hnil
                                          | exact Hk].
      apply list_elem_of_fmap. exists (k, v). split; [reflexivity | exact Hin]. }
    apply list_elem_of_fmap in Hk as (trip & -> & Htrip).
    rewrite Forall_forall in Hplain. specialize (Hplain trip Htrip).
    unfold Tally.plain in Hplain. apply andb_true_iff in Hplain as [_ Hidx].
    destruct (ScientistDashboard.array_index (ScientistDashboard.mode trip));
      [discriminate | reflexivity].
Qed.

Lemma top_mode_is_first_among_largest_witness :
  let shown := [Samples.family_trip; Samples.bus_trip] in
  shown <> [] /\
  Forall (fun trip => Tally.ordinary (ScientistDashboard.mode trip) = true)
         shown /\
  Forall (fun trip => Tally.plain (ScientistDashboard.mode trip) = true)
         shown /\
  map fst (ScientistDashboard.modeCounts shown) = ["car"; "bus"] /\
  ScientistDashboard.entries (ScientistDashboard.modeCounts shown)
    = ScientistDashboard.modeCounts shown /\
  ScientistDashboard.topMode (ScientistDashboard.getStats shown)
    = "car (1 trips)".
Proof.
  assert (Hne : [Samples.family_trip; Samples.bus_trip] <> []) by discriminate.
  assert (Hord : Forall (fun trip =>
                           Tally.ordinary (ScientistDashboard.mode trip) = true)
                   [Samples.family_trip; Samples.bus_trip])
    by (repeat constructor).
  assert (Hplain : Forall (fun trip =>
                             Tally.plain (ScientistDashboard.mode trip) = true)
                     [Samples.family_trip; Samples.bus_trip])
    by (repeat constructor).
  split; [exact Hne |]. split; [exact Hord |]. split; [exact Hplain |].
  split; [exact (proj1 (top_mode_is_first_among_largest _ Hne Hord)) |].
  split; [exact (proj2 (proj2 (top_mode_is_first_among_largest _ Hne Hord))
                   Hplain) |].
  reflexivity.
Defined.

(** A mode that is the text of a number is listed before the others,
    wherever it first appeared: after a bus trip and a trip on line 7, one
    each, the most-used mode reads "7 (1 trips)". *)
Lemma numeric_mode_listed_first :
  let shown := [Samples.bus_trip; Examples.line_7_trip] in
  map fst (ScientistDashboard.modeCounts shown) = ["bus"; "7"] /\
  map fst (ScientistDashboard.entries (ScientistDashboard.modeCounts shown))
    = ["7"; "bus"] /\
  ScientistDashboard.topMode (ScientistDashboard.getStats shown)
    = "7 (1 trips)".
Proof. repeat split; vm_compute; reflexivity. Qed.

(** ** AuthPage.tsx *)

(** X26: a sign-up whose two passwords differ is turned down on the spot:
    the "Password Mismatch" notice is the only thing that happens; no
    backend call is made, the callback is not invoked and the state,
    busy flag included, is as it was. *)
Theorem signup_mismatch_rejected
    (w : World AuthPage.State)
    (signedUp : reply AuthPage.AuthResponse)
    (profileInserted : reply (option PostgrestError)) :
  AuthPage.signup_password (AuthPage.signupData (local w))
    <> AuthPage.confirmPassword (AuthPage.signupData (local w)) ->
  exec (AuthPage.handleSignup signedUp profileInserted) w
  = mkWorld (local w) (effects w ++ [toasted AuthPage.passwordMismatch]) (db w).
Proof.
  destruct w as [[busy ld sd hs] es tables]; simpl. intros Hne.
  unfold exec, AuthPage.handleSignup, bind, get; simpl.
  rewrite bool_decide_eq_false_2 by exact Hne. reflexivity.
Qed.

Lemma signup_mismatch_rejected_witness :
  let w := Examples.mistyped_sign_up in
  AuthPage.signup_password (AuthPage.signupData (local w))
    <> AuthPage.confirmPassword (AuthPage.signupData (local w)) /\
  exec (AuthPage.handleSignup
          (Resolved (AuthPage.mkAuthResponse (Some Examples.unconfirmed) None))
          (Resolved None)) w
  = mkWorld (local w) (effects w ++ [toasted AuthPage.passwordMismatch]) (db w).
Proof.
  assert (H : AuthPage.signup_password
                (AuthPage.signupData (local Examples.mistyped_sign_up))
              <> AuthPage.confirmPassword
                   (AuthPage.signupData (local Examples.mistyped_sign_up)))
    by discriminate.
  split; [exact H |].
  exact (signup_mismatch_rejected Examples.mistyped_sign_up _ _ H).
Defined.

(** X27: what a login attempt comes to.  It makes exactly one backend
    call, the sign-in with the typed email and password, and ends with the
    busy flag down.  The success callback is invoked, once, exactly when
    the call resolves without error and with a user; an error shows
    "Login Failed" with the backend's message, a rejected call shows
    "An unexpected error occurred.", and an answer with neither error nor
    user shows nothing at all. *)
Theorem login_outcomes
    (w : World AuthPage.State) (signedIn : reply AuthPage.AuthResponse) :
  let st := local w in
  let w' := exec (AuthPage.handleLogin signedIn) w in
  AuthPage.requests (AuthPage.happenings (local w'))
    = AuthPage.requests (AuthPage.happenings st)
      ++ [AuthPage.signInWithPassword
            (AuthPage.email (AuthPage.loginData st))
            (AuthPage.password (AuthPage.loginData st))] /\
  AuthPage.isLoading (local w') = false /\
  AuthPage.successes (AuthPage.happenings (local w'))
    = AuthPage.successes (AuthPage.happenings st)
      + match signedIn with
        | Resolved (AuthPage.mkAuthResponse (Some _) None) => 1
        | _ => 0
        end /\
  toasts (effects w')
    = toasts (effects w)
      ++ match signedIn with
         | Resolved (AuthPage.mkAuthResponse _ (Some e)) =>
             [mkToast "Login Failed" (AuthPage.message e) destructive]
         | Resolved (AuthPage.mkAuthResponse (Some _) None) =>
             [AuthPage.welcomeBack]
         | Resolved (AuthPage.mkAuthResponse None None) => []
         | Rejected _ => [AuthPage.unexpectedError]
         end.
Proof.
  destruct w as [[busy ld sd hs] es tables]; simpl.
  unfold exec, AuthPage.handleLogin, AuthPage.request, AuthPage.happen, bind,
    get, try_catch_finally, AuthPage.requests, AuthPage.successes; simpl.
  destruct signedIn as [[[u |] [e |]] | x]; simpl;
    rewrite ?omap_app, ?List.filter_app, ?length_app, ?toasts_app; simpl;
    rewrite ?app_nil_r, <- ?app_assoc; repeat split; simpl; lia.
Qed.



(** ** service-worker.js *)




Lemma onFetch_new_entries
    (cache : ServiceWorker.Cache) (request : ServiceWorker.Request)
    (network : reply ServiceWorker.Response)
    (key : string) (r : ServiceWorker.Response) :
  ServiceWorker.cache_after (ServiceWorker.onFetch cache request network) !! key
  = Some r ->
  cache !! key = Some r \/
  (network = Resolved r /\ ServiceWorker.method request = "GET" /\
   ServiceWorker.url request = key /\ ServiceWorker.ok r = true).
Proof.
  unfold ServiceWorker.onFetch, ServiceWorker.cache_match.
  destruct (bool_decide_reflect (ServiceWorker.method request = "GET"))
    as [Hget | Hget]; simpl.
  - destruct (cache !! ServiceWorker.url request) as [hit |] eqn:Hhit;
      simpl; [auto |].
    destruct network as [resp | x]; simpl; [| auto].
    destruct (ServiceWorker.ok resp) eqn:Hok; simpl; [| auto].
    unfold ServiceWorker.cache_put.
    destruct (decide (ServiceWorker.url request = key)) as [<- | Hne].
    + rewrite lookup_insert_eq. intros [= <-]. right. auto.
    + rewrite lookup_insert_ne by exact Hne. auto.
  - destruct network as [resp | x]; simpl; auto.
Qed.

(** X30: what gets into the cache.  After any series of fetch events every
    cached response was either cached before or is the successful ([ok])
    network response to a GET request for that URL among the events;
    responses that are not ok, rejected fetches and requests of other
    methods leave the cache as it is, and a request of another method is
    never answered from the cache. *)
Theorem cache_holds_ok_get_responses_only
    (events : list (ServiceWorker.Request * reply ServiceWorker.Response))
    (cache : ServiceWorker.Cache) :
  (forall (key : string) (r : ServiceWorker.Response),
     ServiceWorker.serve events cache !! key = Some r ->
     cache !! key = Some r \/
     exists request,
       (request, Resolved r) ∈ events /\
       ServiceWorker.method request = "GET" /\
       ServiceWorker.url request = key /\
       ServiceWorker.ok r = true) /\
  (forall request network,
     ServiceWorker.method request <> "GET" ->
     ServiceWorker.onFetch cache request network
     = ServiceWorker.mkOutcome network true cache).
Proof.
  split.
  - revert cache. induction events as [| [req net] events IH];
      intros cache key r Hr; simpl in Hr; [auto |].
    destruct (IH _ key r Hr) as [Hold | (request & Hin & Hrest)].
    + apply onFetch_new_entries in Hold as [Hold | (-> & Hget & Hurl & Hok)];
        [auto |].
      right. exists req. split; [left | auto].
    + right. exists request. split; [right; exact Hin | exact Hrest].
  - intros request network Hget.
    unfold ServiceWorker.onFetch, ServiceWorker.cache_match.
    rewrite bool_decide_eq_false_2 by exact Hget. simpl.
    destruct network; reflexivity.
Qed.
